(** * Course-management views of the e-learning platform

    A shallow embedding of [courses/views.py].  The persistent store is a
    record of finite maps keyed by primary key, a view is a state-passing
    computation over that store which either returns a response or is cut
    short by an exception, and the class statements of the source are kept
    as data (a method resolution order plus class attributes) that the
    generic view machinery interprets. *)

From stdpp Require Import gmap strings list fin_maps.

Local Open Scope string_scope.
Local Open Scope Z_scope.

(** ** Data model *)

Definition pk := positive.
Definition actor := positive.

(** [auth.User] as the views see it: identity and permission grants. *)
Record User := {
  user_id : actor;
  is_superuser : bool;
  user_permissions : list string;
}.

(** Modelled from the spec: the four concrete typed models of
    [courses/models.py] that a [Content] record may refer to. *)
Inductive item_kind := Text | Video | Image | File.

#[global] Instance item_kind_eq_dec : EqDecision item_kind.
Proof. solve_decision. Defined.

(** Modelled from the spec: [Subject] of [courses/models.py]. *)
Record Subject := {
  subject_title : string;
  subject_slug : string;
}.

(** Modelled from the spec: [Course] of [courses/models.py]; the creation
    time plays no part in the views. *)
Record Course := {
  course_owner : actor;
  course_subject : pk;
  course_title : string;
  course_slug : string;
  course_overview : string;
}.

(** Modelled from the spec: [Module] of [courses/models.py].  The name is a
    reserved word here, hence the trailing underscore. *)
Record Module_ := {
  module_course : pk;
  module_title : string;
  module_description : string;
  module_order : Z;
}.

(** Modelled from the spec: [Content] of [courses/models.py], the join
    record whose [item] is a reference to a row of one of the typed
    models. *)
Record Content := {
  content_module : pk;
  content_item : item_kind * pk;
  content_order : Z;
}.

(** Modelled from the spec: a row of [Text], [Video], [Image] or [File] of
    [courses/models.py]; the payload stands for the field that differs
    between them. *)
Record Item := {
  item_owner : actor;
  item_title : string;
  item_payload : string;
}.

(** The store: one table per model, primary keys unique by construction;
    the typed items live in one table per kind. *)
Record db := {
  subjects : gmap pk Subject;
  courses : gmap pk Course;
  modules : gmap pk Module_;
  contents : gmap pk Content;
  items : item_kind → gmap pk Item;
}.

Definition set_courses (f : gmap pk Course → gmap pk Course) (d : db) : db :=
  {| subjects := subjects d; courses := f (courses d); modules := modules d;
     contents := contents d; items := items d |}.

Definition set_modules (f : gmap pk Module_ → gmap pk Module_) (d : db) : db :=
  {| subjects := subjects d; courses := courses d; modules := f (modules d);
     contents := contents d; items := items d |}.

Definition set_contents (f : gmap pk Content → gmap pk Content) (d : db) : db :=
  {| subjects := subjects d; courses := courses d; modules := modules d;
     contents := f (contents d); items := items d |}.

Definition set_items (k : item_kind) (f : gmap pk Item → gmap pk Item) (d : db) : db :=
  {| subjects := subjects d; courses := courses d; modules := modules d;
     contents := contents d;
     items := λ k', if decide (k' = k) then f (items d k) else items d k' |}.

(** ** Requests and responses *)

Inductive http_method := GET | POST.

Record request := {
  user : option User;          (* [None] is the anonymous user *)
  method : http_method;
}.

(** The request of a signed-in actor. *)
Abbreviation request_of u m := {| user := Some u; method := m |}.

Inductive route :=
  | login
  | manage_course_list
  | module_content_list (module_id : pk).

(** What a template is rendered with. *)
Inductive context :=
  | CourseListContext (object_list : gmap pk Course)
  | CourseFormContext (object : option pk) (form_errors : bool)
  | CourseConfirmDeleteContext (object : pk)
  | FormsetContext (course : pk) (form_errors : bool)
  | ContentFormContext (object : option (item_kind * pk)) (form_errors : bool)
  | ModuleContext (module : pk)
  | CatalogContext (subjects : gmap pk (Subject * nat))
                   (subject : option pk)
                   (courses : gmap pk (Course * nat)).

Inductive response :=
  | HttpResponseRedirect (to : route)
  | TemplateResponse (template : string) (ctx : context)
  | JsonResponse (payload : list (string * string))
  | HttpResponseNotAllowed
  | Http404                         (* NotFoundError *)
  | PermissionDenied                (* AuthorizationError, 403 *)
  | ServerError (exception : string). (* any other uncaught exception, 500 *)

(** ** Computations over the store

    No transaction wraps a request, so the writes made before an exception
    stay: [Raise] carries the store reached so far like [Return] does. *)

Inductive outcome (A : Type) :=
  | Return (a : A)
  | Raise (r : response).
Arguments Return {A} a.
Arguments Raise {A} r.

Definition orm (A : Type) : Type := db → db * outcome A.

#[global] Instance orm_ret : MRet orm := λ A a d, (d, Return a).

#[global] Instance orm_bind : MBind orm := λ A B f c d,
  match c d with
  | (d', Return a) => f a d'
  | (d', Raise r) => (d', Raise r)
  end.

Definition raise {A} (r : response) : orm A := λ d, (d, Raise r).
Definition query {A} (f : db → A) : orm A := λ d, (d, Return (f d)).
Definition modify (f : db → db) : orm unit := λ d, (f d, Return ()).

(** The response a client gets from a view. *)
Definition respond (c : orm response) (d : db) : db * response :=
  match c d with
  | (d', Return r) => (d', r)
  | (d', Raise r) => (d', r)
  end.

(** ** The object-relational layer *)

(** [get_object_or_404(klass, **lookups)] is [queryset.get()] with
    [DoesNotExist] turned into a 404; [MultipleObjectsReturned] is not
    caught.  The argument is the already filtered queryset. *)
Definition get_object_or_404 {A} (qs : gmap pk A) : orm (pk * A) :=
  match map_to_list qs with
  | [] => raise Http404
  | [x] => mret x
  | _ => raise (ServerError "MultipleObjectsReturned")
  end.

(** [owner=request.user] as a lookup value: a saved user stands for its
    key; the anonymous user is no model instance and has no key, and
    preparing the lookup raises. *)
Definition owner_lookup (req : request) : orm actor :=
  match user req with
  | Some u => mret (user_id u)
  | None => raise (ServerError "TypeError")
  end.

(** The traversals [course__owner] and [module__course__owner]. *)
Definition module_owner (d : db) (m : Module_) : option actor :=
  course_owner <$> courses d !! module_course m.

Definition content_owner (d : db) (c : Content) : option actor :=
  modules d !! content_module c ≫= module_owner d.

(** ** Access mixins of [django.contrib.auth.mixins] *)

Definition is_authenticated (req : request) : bool :=
  match user req with Some _ => true | None => false end.

Definition has_perm (u : User) (perm : string) : bool :=
  is_superuser u || bool_decide (perm ∈ user_permissions u).

Definition has_permission (req : request) (perm : string) : bool :=
  match user req with Some u => has_perm u perm | None => false end.

(** [AccessMixin.handle_no_permission] with [raise_exception] left at its
    default: a signed-in user is refused, anyone else is sent to sign in. *)
Definition handle_no_permission (req : request) : orm response :=
  if is_authenticated req then raise PermissionDenied
  else mret (HttpResponseRedirect login).

(** ** Class statements as data *)

Inductive klass :=
  | PermissionRequiredMixin | LoginRequiredMixin
  | OwnerMixin | OwnerEditMixin | OwnerCourseMixin | OwnerCourseEditMixin
  | ListView | CreateView | UpdateView | DeleteView.

#[global] Instance klass_eq_dec : EqDecision klass.
Proof. solve_decision. Defined.

Record view_class := {
  mro : list klass;                      (* linearised bases, most derived first *)
  template_name : string;
  permission_required : option string;
}.

(** [dispatch] walks the method resolution order: only the two access
    mixins override it, every other class passes the call on, and the end
    of the chain is [View.dispatch], i.e. the method handler.  The class
    attribute [permission_required] is read by [PermissionRequiredMixin]
    and by nothing else. *)
Fixpoint dispatch (bases : list klass) (perm : option string) (req : request)
    (handler : orm response) : orm response :=
  match bases with
  | [] => handler
  | PermissionRequiredMixin :: rest =>
      match perm with
      | None => raise (ServerError "ImproperlyConfigured")
      | Some p =>
          if has_permission req p then dispatch rest perm req handler
          else handle_no_permission req
      end
  | LoginRequiredMixin :: rest =>
      if is_authenticated req then dispatch rest perm req handler
      else handle_no_permission req
  | _ :: rest => dispatch rest perm req handler
  end.

(** ** Forms *)

(** Submitted fields of the Course model form,
    [fields = ['subject', 'title', 'slug', 'overview']]. *)
Record CourseForm := {
  form_subject : pk;
  form_title : string;
  form_slug : string;
  form_overview : string;
}.

(** One row of the module formset: the module it edits (none for an extra
    row), the two editable fields and the deletion mark. *)
Record ModuleForm := {
  row_id : option pk;
  row_title : string;
  row_description : string;
  row_DELETE : bool;
}.

(** Submitted fields of a typed item's model form; [owner], [order],
    [created] and [updated] are excluded from it. *)
Record ItemForm := {
  item_form_title : string;
  item_form_payload : string;
}.

(** Modelled from the spec: what [courses/models.py] and [courses/forms.py]
    decide and the views do not, namely field validation, the order given
    to a new row, and which values the order column takes.  All are left
    open.  An order can be refused in two ways, each with the name of the
    exception it ends in: [order_write_error] when the value cannot be
    handed to the storage layer at all (it is outside the column's type),
    which happens whatever rows the statement matches, and
    [order_constraint_error] when a row written with it breaks a
    constraint of the column, which takes a row that is written. *)
Class ModelLayer := {
  course_form_is_valid : db → option pk → CourseForm → bool;
  module_form_is_valid : db → pk → ModuleForm → bool;
  item_form_is_valid : db → item_kind → ItemForm → bool;
  default_module_order : db → pk → Z;
  default_content_order : db → pk → Z;
  order_write_error : Z → option string;
  order_constraint_error : Z → option string;
}.

Section Views.
Context `{ModelLayer}.

(** [View.dispatch]: the handler for the request's method. *)
Definition as_view (cls : view_class) (req : request)
    (get post : orm response) : db → db * response :=
  respond (dispatch (mro cls) (permission_required cls) req
             (match method req with GET => get | POST => post end)).

(** ** Course CRUD: the owner mixins over the generic views *)

(** [OwnerMixin.get_queryset] on top of the generic one for
    [model = Course]. *)
Definition get_queryset (cls : view_class) (req : request) : orm (gmap pk Course) :=
  qs ← query courses;
  if bool_decide (OwnerMixin ∈ mro cls) then
    a ← owner_lookup req;
    mret (filter (λ kv, course_owner kv.2 = a) qs)
  else mret qs.

(** [SingleObjectMixin.get_object]: the row of the queryset with this key,
    or a 404. *)
Definition get_object (cls : view_class) (req : request) (id : pk) : orm (pk * Course) :=
  qs ← get_queryset cls req;
  get_object_or_404 (filter (λ kv, kv.1 = id) qs).

(** [OwnerEditMixin.form_valid] on top of [ModelFormMixin.form_valid]:
    stamp the owner, save the instance, go to [success_url]. *)
Definition form_valid (cls : view_class) (req : request)
    (instance : option (pk * Course)) (form : CourseForm) : orm response :=
  owner ← (if bool_decide (OwnerEditMixin ∈ mro cls) then
             match user req with
             | Some u => mret (Some (user_id u))
             | None => raise (ServerError "ValueError")
             end
           else mret (course_owner ∘ snd <$> instance));
  match owner with
  | None => raise (ServerError "IntegrityError")
  | Some o =>
      id ← match instance with
           | Some (i, _) => mret i
           | None => query (λ d, fresh (dom (courses d)))
           end;
      modify (set_courses <[id := {| course_owner := o;
                                     course_subject := form_subject form;
                                     course_title := form_title form;
                                     course_slug := form_slug form;
                                     course_overview := form_overview form |}]>);;
      mret (HttpResponseRedirect manage_course_list)
  end.

Definition ListView_get (cls : view_class) (req : request) : orm response :=
  qs ← get_queryset cls req;
  mret (TemplateResponse (template_name cls) (CourseListContext qs)).

Definition CreateView_get (cls : view_class) : orm response :=
  mret (TemplateResponse (template_name cls) (CourseFormContext None false)).

Definition CreateView_post (cls : view_class) (req : request) (form : CourseForm)
    : orm response :=
  valid ← query (λ d, course_form_is_valid d None form);
  if valid : bool then form_valid cls req None form
  else mret (TemplateResponse (template_name cls) (CourseFormContext None true)).

Definition UpdateView_get (cls : view_class) (req : request) (id : pk) : orm response :=
  object ← get_object cls req id;
  mret (TemplateResponse (template_name cls) (CourseFormContext (Some object.1) false)).

Definition UpdateView_post (cls : view_class) (req : request) (id : pk)
    (form : CourseForm) : orm response :=
  object ← get_object cls req id;
  valid ← query (λ d, course_form_is_valid d (Some object.1) form);
  if valid : bool then form_valid cls req (Some object) form
  else mret (TemplateResponse (template_name cls)
               (CourseFormContext (Some object.1) true)).

(** Modelled from the spec: the cascade of [courses/models.py] when a Course
    row goes, which takes the Course's Modules and their Content records
    with it (the typed items are not reached by it). *)
Definition delete_course (id : pk) (d : db) : db :=
  {| subjects := subjects d;
     courses := delete id (courses d);
     modules := filter (λ kv, module_course kv.2 ≠ id) (modules d);
     contents := filter (λ kv, module_course <$> modules d !! content_module kv.2
                               ≠ Some id) (contents d);
     items := items d |}.

Definition DeleteView_get (cls : view_class) (req : request) (id : pk) : orm response :=
  object ← get_object cls req id;
  mret (TemplateResponse (template_name cls) (CourseConfirmDeleteContext object.1)).

Definition DeleteView_post (cls : view_class) (req : request) (id : pk) : orm response :=
  object ← get_object cls req id;
  modify (delete_course object.1);;
  mret (HttpResponseRedirect manage_course_list).

(** The four class statements.  [OwnerCourseMixin(OwnerMixin,
    LoginRequiredMixin)] and [OwnerCourseEditMixin(OwnerCourseMixin,
    OwnerEditMixin)] linearise as written below; [PermissionRequiredMixin]
    is a base of [CourseCreateView] only. *)
Definition ManageCourseListView_class : view_class :=
  {| mro := [OwnerCourseMixin; OwnerMixin; LoginRequiredMixin; ListView];
     template_name := "courses/manage/course/list.html";
     permission_required := None |}.

Definition CourseCreateView_class : view_class :=
  {| mro := [PermissionRequiredMixin; OwnerCourseEditMixin; OwnerCourseMixin;
             OwnerMixin; LoginRequiredMixin; OwnerEditMixin; CreateView];
     template_name := "courses/manage/course/form.html";
     permission_required := Some "courses.add_course" |}.

Definition CourseUpdateView_class : view_class :=
  {| mro := [OwnerCourseEditMixin; OwnerCourseMixin; OwnerMixin;
             LoginRequiredMixin; OwnerEditMixin; UpdateView];
     template_name := "courses/manage/course/form.html";
     permission_required := Some "courses.change_course" |}.

Definition CourseDeleteView_class : view_class :=
  {| mro := [OwnerCourseMixin; OwnerMixin; LoginRequiredMixin; DeleteView];
     template_name := "courses/manage/course/delete.html";
     permission_required := Some "courses.delete_course" |}.

Definition ManageCourseListView (req : request) : db → db * response :=
  as_view ManageCourseListView_class req
    (ListView_get ManageCourseListView_class req)
    (mret HttpResponseNotAllowed).

Definition CourseCreateView (req : request) (form : CourseForm) : db → db * response :=
  as_view CourseCreateView_class req
    (CreateView_get CourseCreateView_class)
    (CreateView_post CourseCreateView_class req form).

Definition CourseUpdateView (req : request) (id : pk) (form : CourseForm)
    : db → db * response :=
  as_view CourseUpdateView_class req
    (UpdateView_get CourseUpdateView_class req id)
    (UpdateView_post CourseUpdateView_class req id form).

Definition CourseDeleteView (req : request) (id : pk) : db → db * response :=
  as_view CourseDeleteView_class req
    (DeleteView_get CourseDeleteView_class req id)
    (DeleteView_post CourseDeleteView_class req id).

(** ** Module formset *)

(** Modelled from the spec: the cascade of [courses/models.py] when a Module
    row goes, which takes the Module's Content records with it. *)
Definition delete_module (id : pk) (d : db) : db :=
  set_contents (filter (λ kv, content_module kv.2 ≠ id))
    (set_modules (delete id) d).

(** Modelled from the spec: [ModuleFormSet] of [courses/forms.py], the
    inline formset of a Course's Modules with the fields title and
    description and a deletion mark per row.  The set is valid when every
    row is; saving goes through the rows bound to an existing Module of the
    Course first (delete the marked ones, write the others) and then adds
    a Module for every extra row that is not marked. *)
Definition formset_is_valid (d : db) (course : pk) (rows : list ModuleForm) : bool :=
  forallb (module_form_is_valid d course) rows.

(** Modelled from the spec: one row of [ModuleFormSet] bound to a Module of
    the Course, deleted if marked and written otherwise. *)
Definition save_existing_object (course : pk) (d : db) (row : ModuleForm) : db :=
  match row_id row with
  | Some i =>
      match modules d !! i with
      | Some m =>
          if decide (module_course m = course) then
            if row_DELETE row then delete_module i d
            else set_modules <[i := {| module_course := module_course m;
                                       module_title := row_title row;
                                       module_description := row_description row;
                                       module_order := module_order m |}]> d
          else d
      | None => d
      end
  | None => d
  end.

(** Modelled from the spec: one extra row of [ModuleFormSet], added as a new
    Module of the Course unless marked. *)
Definition save_new_object (course : pk) (d : db) (row : ModuleForm) : db :=
  match row_id row with
  | Some _ => d
  | None =>
      if row_DELETE row then d
      else set_modules <[fresh (dom (modules d)) :=
                           {| module_course := course;
                              module_title := row_title row;
                              module_description := row_description row;
                              module_order := default_module_order d course |}]> d
  end.

(** Modelled from the spec: [ModuleFormSet.save()], existing rows first,
    then the extra ones. *)
Definition formset_save (course : pk) (rows : list ModuleForm) (d : db) : db :=
  foldl (save_new_object course) (foldl (save_existing_object course) d rows) rows.

Definition formset_template : string := "courses/manage/module/formset.html".

Definition CourseModuleUpdateView_get (course : pk * Course) : orm response :=
  mret (TemplateResponse formset_template (FormsetContext course.1 false)).

Definition CourseModuleUpdateView_post (course : pk * Course)
    (data : list ModuleForm) : orm response :=
  valid ← query (λ d, formset_is_valid d course.1 data);
  if valid : bool then
    modify (formset_save course.1 data);;
    mret (HttpResponseRedirect manage_course_list)
  else mret (TemplateResponse formset_template (FormsetContext course.1 true)).

Definition CourseModuleUpdateView_dispatch (req : request) (id : pk)
    (data : list ModuleForm) : orm response :=
  a ← owner_lookup req;
  qs ← query (λ d, filter (λ kv, kv.1 = id ∧ course_owner kv.2 = a) (courses d));
  course ← get_object_or_404 qs;
  match method req with
  | GET => CourseModuleUpdateView_get course
  | POST => CourseModuleUpdateView_post course data
  end.

Definition CourseModuleUpdateView (req : request) (id : pk)
    (data : list ModuleForm) : db → db * response :=
  respond (CourseModuleUpdateView_dispatch req id data).

(** ** Polymorphic content *)

(** [apps.get_model(app_label='courses', model_name=...)]. *)
Definition apps_get_model (model_name : string) : option item_kind :=
  if decide (model_name = "text") then Some Text
  else if decide (model_name = "video") then Some Video
  else if decide (model_name = "image") then Some Image
  else if decide (model_name = "file") then Some File
  else None.

Definition get_model (model_name : string) : option item_kind :=
  if bool_decide (model_name ∈ ["text"; "video"; "image"; "file"])
  then apps_get_model model_name
  else None.

(** [get_form]: [modelform_factory] starts by reading the name of the
    model class, and with no model that raises. *)
Definition get_form (model : option item_kind) : orm item_kind :=
  match model with
  | Some k => mret k
  | None => raise (ServerError "AttributeError")
  end.

Definition content_form_template : string := "courses/manage/content/form.html".

Definition ContentCreateUpdateView_get (model : option item_kind)
    (obj : option (pk * Item)) : orm response :=
  k ← get_form model;
  mret (TemplateResponse content_form_template
          (ContentFormContext ((λ o, (k, o.1)) <$> obj) false)).

(** [form.save(commit=False)] followed by [obj.owner = request.user]: the
    instance that [obj.save()] writes. *)
Definition saved_item (a : actor) (data : ItemForm) : Item :=
  {| item_owner := a; item_title := item_form_title data;
     item_payload := item_form_payload data |}.

Definition ContentCreateUpdateView_post (a : actor) (module : pk * Module_)
    (model : option item_kind) (obj : option (pk * Item)) (id : option pk)
    (data : ItemForm) : orm response :=
  k ← get_form model;
  valid ← query (λ d, item_form_is_valid d k data);
  if valid : bool then
    (* obj = form.save(commit=False); obj.owner = request.user; obj.save() *)
    i ← match obj with
        | Some o => mret o.1
        | None => query (λ d, fresh (dom (items d k)))
        end;
    modify (set_items k <[i := saved_item a data]>);;
    (if id is None then
       modify (λ d, set_contents
                      <[fresh (dom (contents d)) :=
                          {| content_module := module.1;
                             content_item := (k, i);
                             content_order := default_content_order d module.1 |}]> d)
     else mret ());;
    mret (HttpResponseRedirect (module_content_list module.1))
  else mret (TemplateResponse content_form_template
               (ContentFormContext ((λ o, (k, o.1)) <$> obj) true)).

Definition ContentCreateUpdateView_dispatch (req : request) (module_id : pk)
    (model_name : string) (id : option pk) (data : ItemForm) : orm response :=
  a ← owner_lookup req;
  qs ← query (λ d, filter (λ kv, kv.1 = module_id ∧ module_owner d kv.2 = Some a)
                     (modules d));
  module ← get_object_or_404 qs;
  let model := get_model model_name in
  obj ← match id with
        | Some i =>
            match model with
            | Some k =>
                qs ← query (λ d, filter (λ kv, kv.1 = i ∧ item_owner kv.2 = a)
                                   (items d k));
                o ← get_object_or_404 qs;
                mret (Some o)
            | None => raise (ServerError "ValueError")
            end
        | None => mret None
        end;
  match method req with
  | GET => ContentCreateUpdateView_get model obj
  | POST => ContentCreateUpdateView_post a module model obj id data
  end.

Definition ContentCreateUpdateView (req : request) (module_id : pk)
    (model_name : string) (id : option pk) (data : ItemForm) : db → db * response :=
  respond (ContentCreateUpdateView_dispatch req module_id model_name id data).

(** ** Content deletion and listing *)

Definition ContentDeleteView_post (req : request) (id : pk) : orm response :=
  a ← owner_lookup req;
  qs ← query (λ d, filter (λ kv, kv.1 = id ∧ content_owner d kv.2 = Some a)
                     (contents d));
  content ← get_object_or_404 qs;
  (* content.item.delete() *)
  item ← query (λ d, items d (content_item content.2).1 !! (content_item content.2).2);
  match item with
  | Some _ => modify (set_items (content_item content.2).1
                        (delete (content_item content.2).2))
  | None => raise (ServerError "AttributeError")
  end;;
  (* content.delete() *)
  modify (set_contents (delete content.1));;
  (* redirect('module_content_list', module.id): no [module] is in scope *)
  raise (ServerError "NameError").

Definition ContentDeleteView (req : request) (id : pk) : db → db * response :=
  respond (match method req with
           | GET => mret HttpResponseNotAllowed
           | POST => ContentDeleteView_post req id
           end).

Definition ModuleContentListView_get (req : request) (module_id : pk) : orm response :=
  a ← owner_lookup req;
  qs ← query (λ d, filter (λ kv, kv.1 = module_id ∧ module_owner d kv.2 = Some a)
                     (modules d));
  module ← get_object_or_404 qs;
  mret (TemplateResponse "courses/manage/module/content_list.html"
          (ModuleContext module.1)).

Definition ModuleContentListView (req : request) (module_id : pk) : db → db * response :=
  respond (match method req with
           | GET => ModuleContentListView_get req module_id
           | POST => mret HttpResponseNotAllowed
           end).

(** ** Ordering *)

(** [for x in xs: body(x)]. *)
Fixpoint for_each {A} (xs : list A) (body : A → orm unit) : orm unit :=
  match xs with
  | [] => mret ()
  | x :: rest => body x;; for_each rest body
  end.

(** The rows that [queryset.update(...)] writes when the storage layer
    takes the statement: every row of the queryset is rewritten in its
    table, the other rows stay. *)
Definition queryset_update {A} (f : A → A) (qs table : gmap pk A) : gmap pk A :=
  (f <$> qs) ∪ table.

(** One [filter(id=..., <condition>).update(...)] on a table, as the two
    ordering views below issue it for every pair of the body. *)
Definition update_row {A} (P : A → Prop) `{∀ x, Decision (P x)} (set : Z → A → A)
    (table : gmap pk A) (pair : pk * Z) : gmap pk A :=
  queryset_update (set pair.2) (filter (λ kv, kv.1 = pair.1 ∧ P kv.2) table) table.

Definition set_module_order (order : Z) (m : Module_) : Module_ :=
  {| module_course := module_course m; module_title := module_title m;
     module_description := module_description m; module_order := order |}.

Definition set_content_order (order : Z) (c : Content) : Content :=
  {| content_module := content_module c; content_item := content_item c;
     content_order := order |}.

(** The exception, if any, that [queryset.update(order=order)] ends in:
    the value may be one the storage layer does not take, and if some row
    is matched the value may be one the column's constraint refuses. *)
Definition order_error (order : Z) (matched : bool) : option string :=
  match order_write_error order with
  | Some exception => Some exception
  | None => if matched then order_constraint_error order else None
  end.

(** [queryset.update(order=order)] on the queryset [qs]: the statement
    either raises, and then nothing is written, or writes its rows.  No
    transaction is open, so what earlier statements of the request wrote
    stays. *)
Definition update_order {A} (order : Z) (qs : gmap pk A) (write : db → db)
    : orm unit :=
  match order_error order (bool_decide (size qs ≠ 0%nat)) with
  | Some exception => raise (ServerError exception)
  | None => modify write
  end.

(** [self.request_json.items()] is the decoded body: the pairs of a
    dictionary from entity id to order, in the order of the body. *)
Definition ModuleOrderView_post (req : request) (request_json : list (pk * Z))
    : orm response :=
  for_each request_json (λ '(id, order),
    a ← owner_lookup req;
    qs ← query (λ d, filter (λ kv, kv.1 = id ∧ module_owner d kv.2 = Some a)
                       (modules d));
    update_order order qs
      (set_modules (queryset_update (set_module_order order) qs)));;
  mret (JsonResponse [("saved", "OK")]).

Definition ContentOrderView_post (req : request) (request_json : list (pk * Z))
    : orm response :=
  for_each request_json (λ '(id, order),
    a ← owner_lookup req;
    qs ← query (λ d, filter (λ kv, kv.1 = id ∧ content_owner d kv.2 = Some a)
                       (contents d));
    update_order order qs
      (set_contents (queryset_update (set_content_order order) qs)));;
  mret (JsonResponse [("saved", "OK")]).

(** [CsrfExemptMixin] and [JsonRequestResponseMixin] decode the body and
    pass the call on; neither looks at the user. *)
Definition ModuleOrderView (req : request) (request_json : list (pk * Z))
    : db → db * response :=
  respond (match method req with
           | GET => mret HttpResponseNotAllowed
           | POST => ModuleOrderView_post req request_json
           end).

Definition ContentOrderView (req : request) (request_json : list (pk * Z))
    : db → db * response :=
  respond (match method req with
           | GET => mret HttpResponseNotAllowed
           | POST => ContentOrderView_post req request_json
           end).

(** ** Public catalog *)

(** [Subject.objects.annotate(total_courses=Count('courses'))] and
    [Course.objects.annotate(total_modules=Count('modules'))]. *)
Definition annotate_total_courses (d : db) : gmap pk (Subject * nat) :=
  map_imap (λ i s, Some (s, size (filter (λ kv, course_subject kv.2 = i) (courses d))))
    (subjects d).

Definition annotate_total_modules (d : db) : gmap pk (Course * nat) :=
  map_imap (λ i c, Some (c, size (filter (λ kv, module_course kv.2 = i) (modules d))))
    (courses d).

Definition CourseListView_get (subject : option string) : orm response :=
  subject_list ← query annotate_total_courses;
  course_list ← query annotate_total_modules;
  match subject with
  | Some slug =>
      if decide (slug = "") then
        mret (TemplateResponse "courses/course/list.html"
                (CatalogContext subject_list None course_list))
      else
        qs ← query (λ d, filter (λ kv, subject_slug kv.2 = slug) (subjects d));
        subject ← get_object_or_404 qs;
        mret (TemplateResponse "courses/course/list.html"
                (CatalogContext subject_list (Some subject.1)
                   (filter (λ kv, course_subject kv.2.1 = subject.1) course_list)))
  | None =>
      mret (TemplateResponse "courses/course/list.html"
              (CatalogContext subject_list None course_list))
  end.

Definition CourseListView (req : request) (subject : option string)
    : db → db * response :=
  respond (match method req with
           | GET => CourseListView_get subject
           | POST => mret HttpResponseNotAllowed
           end).

(** ** Course detail *)

(** What the detail template is rendered with: the Course and the
    enrolment form.  Modelled from the spec: [CourseEnrollForm] of
    [students/forms.py], of which only the initial value of its course
    field is kept. *)
Record detail_context := {
  detail_object : pk * Course;
  enroll_form_initial_course : pk;
}.

Inductive detail_response :=
  | DetailPage (template : string) (ctx : detail_context)
  | DetailError (r : response).

(** [get_context_data]: the context of [DetailView] plus
    [CourseEnrollForm(initial={'course': self.object})]. *)
Definition get_context_data (object : pk * Course) : detail_context :=
  {| detail_object := object; enroll_form_initial_course := object.1 |}.

(** [CourseDetailView(DetailView)] with [model = Course]: no mixin of this
    file is among its bases, the queryset is every Course and only GET has
    a handler. *)
Definition CourseDetailView (req : request) (id : pk) : db → db * detail_response :=
  λ d,
    match method req with
    | GET =>
        match (qs ← query courses;
               get_object_or_404 (filter (λ kv, kv.1 = id) qs)) d with
        | (d', Return object) =>
            (d', DetailPage "courses/course/detail.html" (get_context_data object))
        | (d', Raise r) => (d', DetailError r)
        end
    | POST => (d, DetailError HttpResponseNotAllowed)
    end.

(** ** Notions the properties below are stated with *)

(** The lower-cased class name of a typed model, the tag the URL carries. *)
Definition model_name_of (k : item_kind) : string :=
  match k with
  | Text => "text"
  | Video => "video"
  | Image => "image"
  | File => "file"
  end.

(** An order that the storage layer takes and the column allows. *)
Definition order_accepted (order : Z) : Prop :=
  order_write_error order = None ∧ order_constraint_error order = None.

(** Whether the statement for a pair matches a row of the table. *)
Definition matched {A} (P : A → Prop) `{∀ x, Decision (P x)}
    (table : gmap pk A) (pair : pk * Z) : bool :=
  bool_decide (size (filter (λ kv, kv.1 = pair.1 ∧ P kv.2) table) ≠ 0%nat).

(** The account of an ordering request on one table: the pairs are gone
    through in sequence, and the first one whose order is refused ends the
    request with its exception and the table as the pairs before it left
    it. *)
Fixpoint update_rows_until {A} (P : A → Prop) `{∀ x, Decision (P x)}
    (set : Z → A → A) (table : gmap pk A) (request_json : list (pk * Z))
    : gmap pk A * option string :=
  match request_json with
  | [] => (table, None)
  | row :: rest =>
      match order_error row.2 (matched P table row) with
      | Some exception => (table, Some exception)
      | None => update_rows_until P set (update_row P set table row) rest
      end
  end.

(** A computation that only reads the store. *)
Definition reads {A} (c : orm A) : Prop := ∀ d, (c d).1 = d.

(** Every Content record refers to a typed item that is there, and no two
    Content records refer to the same item. *)
Definition content_integrity (d : db) : Prop :=
  (∀ j K, contents d !! j = Some K →
     is_Some (items d (content_item K).1 !! (content_item K).2))
  ∧ (∀ j j' K K', contents d !! j = Some K → contents d !! j' = Some K' →
       content_item K = content_item K' → j = j').


(** The store [d'] has the typed items of [d], and its Content records are
    records of [d], under the same key and referring to the same item. *)
Definition keeps_references (d d' : db) : Prop :=
  items d' = items d
  ∧ ∀ j K', contents d' !! j = Some K' →
      ∃ K, contents d !! j = Some K ∧ content_item K' = content_item K.

(** A computation that only ever moves the store within [keeps_references]. *)
Definition frames {A} (c : orm A) : Prop := ∀ d, keeps_references d (c d).1.


End Views.

(** ** A small store to evaluate the views on

    Two actors: [alice] owns course 1 (modules 1 and 2), [bob] owns course
    2 (module 3).  Content 1 attaches Alice's text 1 to module 1, content 2
    attaches her text 2 to module 2, content 3 attaches Bob's video 1 to
    module 3; Alice's text 3 is attached to no module.  Neither actor holds
    a permission grant.  The order column is taken to hold the signed
    64-bit integers and to refuse the negative ones. *)
Module Fixture.

Local Open Scope positive_scope.

#[export] Instance layer : ModelLayer := {|
  course_form_is_valid := λ d _ f,
    negb (String.eqb (form_title f) "") && negb (String.eqb (form_slug f) "")
    && negb (String.eqb (form_overview f) "")
    && bool_decide (is_Some (subjects d !! form_subject f));
  module_form_is_valid := λ _ _ r, row_DELETE r || negb (String.eqb (row_title r) "");
  item_form_is_valid := λ _ _ f, negb (String.eqb (item_form_title f) "");
  default_module_order := λ d c,
    Z.of_nat (size (filter (λ kv, module_course kv.2 = c) (modules d)));
  default_content_order := λ d m,
    Z.of_nat (size (filter (λ kv, content_module kv.2 = m) (contents d)));
  order_write_error := λ order,
    if decide (- 2 ^ 63 ≤ order < 2 ^ 63)%Z then None else Some "OverflowError";
  order_constraint_error := λ order,
    if decide (0 ≤ order)%Z then None else Some "IntegrityError";
|}.

Definition alice : User :=
  {| user_id := 1; is_superuser := false; user_permissions := [] |}.

Definition bob : User :=
  {| user_id := 2; is_superuser := false; user_permissions := [] |}.

Definition python : Subject := {| subject_title := "Python"; subject_slug := "python" |}.
Definition maths : Subject := {| subject_title := "Mathematics"; subject_slug := "maths" |}.

Definition django_basics : Course :=
  {| course_owner := 1; course_subject := 1; course_title := "Django Basics";
     course_slug := "django-basics"; course_overview := "" |}.

Definition algebra : Course :=
  {| course_owner := 2; course_subject := 2; course_title := "Algebra";
     course_slug := "algebra"; course_overview := "" |}.

Definition new_module (course : pk) (title : string) (order : Z) : Module_ :=
  {| module_course := course; module_title := title; module_description := "";
     module_order := order |}.

Definition new_item (owner : actor) (title : string) : Item :=
  {| item_owner := owner; item_title := title; item_payload := "" |}.

Definition new_content (module : pk) (k : item_kind) (i : pk) (order : Z) : Content :=
  {| content_module := module; content_item := (k, i); content_order := order |}.

Definition store : db :=
  {| subjects := {[ 1 := python; 2 := maths ]};
     courses := {[ 1 := django_basics; 2 := algebra ]};
     modules := {[ 1 := new_module 1 "Intro" 0; 2 := new_module 1 "Views" 1;
                   3 := new_module 2 "Groups" 0 ]};
     contents := {[ 1 := new_content 1 Text 1 0; 2 := new_content 2 Text 2 0;
                    3 := new_content 3 Video 1 0 ]};
     items := λ k, match k with
                   | Text => {[ 1 := new_item 1 "Welcome"; 2 := new_item 1 "Routing";
                                3 := new_item 1 "Draft" ]}
                   | Video => {[ 1 := new_item 2 "Lecture" ]}
                   | _ => ∅
                   end |}.

(** Submissions. *)
Definition retitled : CourseForm :=
  {| form_subject := 1; form_title := "Django Advanced";
     form_slug := "django-basics";
     form_overview := "Class-based views, forms and templates" |}.

Definition text_form : ItemForm :=
  {| item_form_title := "Hello"; item_form_payload := "Hello, world" |}.

Definition edit_row (i : pk) (title : string) : ModuleForm :=
  {| row_id := Some i; row_title := title; row_description := "";
     row_DELETE := false |}.

Definition extra_row (title : string) : ModuleForm :=
  {| row_id := None; row_title := title; row_description := "";
     row_DELETE := false |}.

Definition delete_row (i : pk) : ModuleForm :=
  {| row_id := Some i; row_title := ""; row_description := "";
     row_DELETE := true |}.

(** Alice's account once the grant to add courses is given, and two
    submissions that do not validate. *)
Definition alice_with_grant : User :=
  {| user_id := 1; is_superuser := false;
     user_permissions := ["courses.add_course"] |}.

Definition untitled : CourseForm :=
  {| form_subject := 1; form_title := ""; form_slug := "untitled";
     form_overview := "No title yet" |}.

Definition blank_form : ItemForm :=
  {| item_form_title := ""; item_form_payload := "" |}.


(** The store with one more Content record, whose image 7 is not there. *)
Definition dangling_store : db :=
  {| subjects := subjects store; courses := courses store;
     modules := modules store;
     contents := <[4 := new_content 1 Image 7 1]> (contents store);
     items := items store |}.


End Fixture.

(** * Properties *)

(** ** Running computations *)

Lemma bind_run {A B} (c : orm A) (f : A → orm B) (d : db) :
  (c ≫= f) d = match c d with
               | (d', Return a) => f a d'
               | (d', Raise r) => (d', Raise r)
               end.
Proof. reflexivity. Qed.

(** A queryset narrowed down to one key holds at most that row, and
    [get_object_or_404] answers with it or with a 404. *)
Lemma get_object_or_404_at {A} (qs : gmap pk A) (id : pk) (d : db) :
  (∀ j x, qs !! j = Some x → j = id) →
  get_object_or_404 qs d
  = (d, match qs !! id with Some x => Return (id, x) | None => Raise Http404 end).
Proof.
  intros Hone. unfold get_object_or_404.
  destruct (qs !! id) as [x|] eqn:Hid.
  - assert (qs = {[id := x]}) as ->.
    { apply map_eq. intros j. destruct (decide (j = id)) as [->|Hne].
      - by rewrite lookup_singleton_eq.
      - rewrite lookup_singleton_ne by done.
        destruct (qs !! j) eqn:Hj; [|done]. by apply Hone in Hj. }
    by rewrite map_to_list_singleton.
  - assert (qs = ∅) as ->.
    { apply map_eq. intros j. rewrite lookup_empty.
      destruct (qs !! j) eqn:Hj; [|done].
      pose proof (Hone _ _ Hj) as ->. congruence. }
    by rewrite map_to_list_empty.
Qed.

(** [get_object_or_404(Model, id=..., <condition>)]. *)
Lemma get_by_pk {A} (P : A → Prop) `{∀ x, Decision (P x)} (table : gmap pk A)
    (id : pk) (d : db) :
  get_object_or_404 (filter (λ kv, kv.1 = id ∧ P kv.2) table) d
  = (d, match table !! id with
        | Some x => if decide (P x) then Return (id, x) else Raise Http404
        | None => Raise Http404
        end).
Proof.
  rewrite (get_object_or_404_at _ id).
  2: { intros j x [_ [? _]]%map_lookup_filter_Some. done. }
  f_equal. destruct (table !! id) as [x|] eqn:Hid.
  - destruct (decide (P x)) as [HP|HP].
    + by rewrite (map_lookup_filter_Some_2 _ _ id x).
    + rewrite map_lookup_filter_None_2; [done|].
      right. intros y Hy [_ HPy]. simpl in *. congruence.
  - rewrite map_lookup_filter_None_2; [done|]. by left.
Qed.

(** Run the part of a computation that does not wait on a lookup. *)
Ltac run :=
  unfold respond;
  repeat first
    [ rewrite bind_run
    | progress (cbn beta iota delta
                  [query mret orm_ret raise modify owner_lookup user method
                   is_authenticated fst snd]) ].

(** Rewrite with [get_by_pk] at the condition [P]. *)
Ltac lookup_by_pk P :=
  let E := fresh "E" in
  pose proof (get_by_pk P) as E; cbv beta in E; rewrite E; clear E.

Section Properties.
Context `{ModelLayer}.

Implicit Types (d : db) (u : User) (m : http_method).

(** ** Ownership scoping *)

Lemma get_object_owner (cls : view_class) u m (id : pk) d :
  OwnerMixin ∈ mro cls →
  get_object cls (request_of u m) id d
  = (d, match courses d !! id with
        | Some c => if decide (course_owner c = user_id u)
                    then Return (id, c) else Raise Http404
        | None => Raise Http404
        end).
Proof.
  intros Hmro. unfold get_object, get_queryset.
  rewrite !bind_run. cbn [query].
  rewrite bool_decide_eq_true_2 by done.
  rewrite bind_run. cbn.
  rewrite (get_object_or_404_at _ id).
  2: { intros j x [_ ?]%map_lookup_filter_Some. done. }
  f_equal. destruct (courses d !! id) as [c|] eqn:Hid.
  - destruct (decide (course_owner c = user_id u)) as [Ho|Ho].
    + rewrite (map_lookup_filter_Some_2 _ _ id c); [done| |done].
      by apply map_lookup_filter_Some_2.
    + rewrite map_lookup_filter_None_2; [done|]. left.
      apply map_lookup_filter_None_2. right. intros c' Hc' Ho'. simpl in *. congruence.
  - rewrite map_lookup_filter_None_2; [done|]. left.
    apply map_lookup_filter_None_2. by left.
Qed.

Lemma get_object_foreign (cls : view_class) u m (id : pk) (c : Course) d :
  OwnerMixin ∈ mro cls →
  courses d !! id = Some c → course_owner c ≠ user_id u →
  get_object cls (request_of u m) id d = (d, Raise Http404).
Proof.
  intros Hmro Hc Ho. rewrite get_object_owner by done.
  rewrite Hc. by rewrite decide_False.
Qed.

Lemma get_object_own (cls : view_class) u m (id : pk) (c : Course) d :
  OwnerMixin ∈ mro cls →
  courses d !! id = Some c → course_owner c = user_id u →
  get_object cls (request_of u m) id d = (d, Return (id, c)).
Proof.
  intros Hmro Hc Ho. rewrite get_object_owner by done.
  rewrite Hc. by rewrite decide_True.
Qed.

Lemma module_lookup_foreign u (id : pk) (M : Module_) (c : Course) d :
  modules d !! id = Some M → courses d !! module_course M = Some c →
  course_owner c ≠ user_id u →
  get_object_or_404
    (filter (λ kv, kv.1 = id ∧ module_owner d kv.2 = Some (user_id u)) (modules d)) d
  = (d, Raise Http404).
Proof.
  intros HM Hc Ho.
  lookup_by_pk (λ x, module_owner d x = Some (user_id u)).
  rewrite HM. rewrite decide_False; [done|].
  unfold module_owner. rewrite Hc. simpl. congruence.
Qed.

(** C2: whatever another actor's Course [c] is asked for through an
    owner-scoped view by a signed-in actor who does not own it, the store is
    left as it was and the answer is a 404: the owner's list leaves [c] out,
    update, delete and the module formset of [c] are not found, and so are
    the content form and content list of a Module of [c] and the deletion of
    a Content of such a Module.  No branch answers [PermissionDenied]. *)
Theorem foreign_course_not_found u (c : pk) (C : Course) d :
  courses d !! c = Some C →
  course_owner C ≠ user_id u →
  (∃ qs, ManageCourseListView (request_of u GET) d
         = (d, TemplateResponse "courses/manage/course/list.html"
                 (CourseListContext qs))
         ∧ qs !! c = None
         ∧ ∀ j x, qs !! j = Some x → course_owner x = user_id u)
  ∧ (∀ m form, CourseUpdateView (request_of u m) c form d = (d, Http404))
  ∧ (∀ m, CourseDeleteView (request_of u m) c d = (d, Http404))
  ∧ (∀ m data, CourseModuleUpdateView (request_of u m) c data d = (d, Http404))
  ∧ (∀ (i : pk) (M : Module_), modules d !! i = Some M → module_course M = c →
       (∀ m model_name id data,
          ContentCreateUpdateView (request_of u m) i model_name id data d
          = (d, Http404))
       ∧ ModuleContentListView (request_of u GET) i d = (d, Http404)
       ∧ ∀ (k : pk) (K : Content), contents d !! k = Some K → content_module K = i →
           ContentDeleteView (request_of u POST) k d = (d, Http404)).
Proof.
  intros HC Ho. split; [|split; [|split; [|split]]].
  - eexists. split; [reflexivity|]. split.
    + apply map_lookup_filter_None_2. right. intros C' HC' Ho'.
      simpl in *. congruence.
    + intros j x [_ ?]%map_lookup_filter_Some. done.
  - intros m form. unfold CourseUpdateView, as_view.
    cbn [dispatch mro CourseUpdateView_class]. run.
    destruct m; unfold UpdateView_get, UpdateView_post; run;
      rewrite (get_object_foreign _ _ _ _ C) by (done || set_solver); done.
  - intros m. unfold CourseDeleteView, as_view.
    cbn [dispatch mro CourseDeleteView_class]. run.
    destruct m; unfold DeleteView_get, DeleteView_post; run;
      rewrite (get_object_foreign _ _ _ _ C) by (done || set_solver); done.
  - intros m data. unfold CourseModuleUpdateView, CourseModuleUpdateView_dispatch.
    run. lookup_by_pk (λ x, course_owner x = user_id u).
    rewrite HC. by rewrite decide_False.
  - intros i M HM <-. split; [|split].
    + intros m model_name id data.
      unfold ContentCreateUpdateView, ContentCreateUpdateView_dispatch. run.
      by rewrite (module_lookup_foreign _ _ M C).
    + unfold ModuleContentListView, ModuleContentListView_get. run.
      by rewrite (module_lookup_foreign _ _ M C).
    + intros k K HK Hm. unfold ContentDeleteView, ContentDeleteView_post. run.
      lookup_by_pk (λ x, content_owner d x = Some (user_id u)).
      rewrite HK. rewrite decide_False; [done|].
      unfold content_owner, module_owner. rewrite Hm, HM. simpl.
      rewrite HC. simpl. congruence.
Qed.

(** ** Ordering *)

Lemma update_row_lookup {A} (P : A → Prop) `{∀ x, Decision (P x)} (set : Z → A → A)
    (table : gmap pk A) (pair : pk * Z) (j : pk) :
  update_row P set table pair !! j
  = (λ x, if decide (j = pair.1 ∧ P x) then set pair.2 x else x) <$> table !! j.
Proof.
  unfold update_row, queryset_update.
  rewrite lookup_union, lookup_fmap.
  destruct (table !! j) as [x|] eqn:Hj; simpl.
  - destruct (decide (j = pair.1 ∧ P x)) as [[-> HP]|Hno].
    + by rewrite (map_lookup_filter_Some_2 _ _ pair.1 x).
    + rewrite map_lookup_filter_None_2; [done|].
      right. intros y Hy [? ?]. simpl in *. apply Hno. split; congruence.
  - rewrite map_lookup_filter_None_2; [done|]. by left.
Qed.

(** After the whole mapping has gone through, a row carries the order the
    mapping gives its id if the condition holds of it, and is as before
    otherwise. *)
Lemma update_rows_lookup {A} (P : A → Prop) `{∀ x, Decision (P x)} (set : Z → A → A)
    (request_json : list (pk * Z)) (table : gmap pk A) (j : pk) :
  (∀ o x, P (set o x) ↔ P x) →
  NoDup request_json.*1 →
  foldl (update_row P set) table request_json !! j
  = (λ x, match (list_to_map request_json : gmap pk Z) !! j with
          | Some o => if decide (P x) then set o x else x
          | None => x
          end) <$> table !! j.
Proof.
  intros Hset. revert table.
  induction request_json as [|[id o] rest IH]; intros table Hnodup.
  - cbn. by destruct (table !! j).
  - apply NoDup_cons in Hnodup as [Hid Hrest].
    cbn [foldl]. rewrite IH by done. rewrite update_row_lookup.
    cbn [list_to_map fst snd]. destruct (table !! j) as [x|]; [|done].
    cbn. f_equal. destruct (decide (j = id)) as [->|Hne].
    + rewrite lookup_insert_eq.
      rewrite (not_elem_of_list_to_map_1 _ id) by done.
      destruct (decide (P x)).
      * by rewrite decide_True.
      * rewrite decide_False; [done|]. by intros [_ ?].
    + rewrite lookup_insert_ne by done.
      rewrite (decide_False (P := j = id ∧ P x)); [done|]. by intros [? _].
Qed.

(** An accepted order is refused by neither check, matched rows or not. *)
Lemma order_error_accepted (order : Z) (rows_matched : bool) :
  order_accepted order → order_error order rows_matched = None.
Proof.
  intros [Hwrite Hconstraint]. unfold order_error. rewrite Hwrite.
  by destruct rows_matched.
Qed.

(** With accepted orders only, the request goes through all its pairs. *)
Lemma update_rows_until_accepted {A} (P : A → Prop) `{∀ x, Decision (P x)}
    (set : Z → A → A) (request_json : list (pk * Z)) (table : gmap pk A) :
  Forall (λ p, order_accepted p.2) request_json →
  update_rows_until P set table request_json
  = (foldl (update_row P set) table request_json, None).
Proof.
  intros Haccepted. revert table.
  induction Haccepted as [|p rest Hp Hrest IH]; intros table; [done|].
  cbn [update_rows_until foldl]. rewrite order_error_accepted by done. apply IH.
Qed.

(** The two ordering views in terms of [update_rows_until], for any body. *)
Lemma ModuleOrderView_run_until u (request_json : list (pk * Z)) d :
  ModuleOrderView (request_of u POST) request_json d
  = (set_modules
       (λ _, (update_rows_until (λ M, module_owner d M = Some (user_id u))
                set_module_order (modules d) request_json).1) d,
     match (update_rows_until (λ M, module_owner d M = Some (user_id u))
              set_module_order (modules d) request_json).2 with
     | Some exception => ServerError exception
     | None => JsonResponse [("saved", "OK")]
     end).
Proof.
  unfold ModuleOrderView, ModuleOrderView_post, respond. cbn [method].
  rewrite bind_run.
  assert (∀ d,
    for_each request_json
      (λ '(id, order),
         a ← owner_lookup (request_of u POST);
         qs ← query (λ d, filter (λ kv, kv.1 = id ∧ module_owner d kv.2 = Some a)
                            (modules d));
         update_order order qs
           (set_modules (queryset_update (set_module_order order) qs))) d
    = (set_modules
         (λ _, (update_rows_until (λ M, module_owner d M = Some (user_id u))
                  set_module_order (modules d) request_json).1) d,
       match (update_rows_until (λ M, module_owner d M = Some (user_id u))
                set_module_order (modules d) request_json).2 with
       | Some exception => Raise (ServerError exception)
       | None => Return ()
       end)) as ->.
  { clear d. set (body := λ '(id, order), _).
    induction request_json as [|[id order] rest IH]; intros d; [by destruct d|].
    cbn [for_each update_rows_until]. rewrite bind_run.
    assert (body (id, order) d
            = match order_error order
                      (matched (λ M, module_owner d M = Some (user_id u)) (modules d) (id, order))
              with
              | Some exception => (d, Raise (ServerError exception))
              | None => (set_modules (λ _, update_row (λ M, module_owner d M = Some (user_id u))
                                     set_module_order (modules d) (id, order)) d,
                         Return ())
              end) as ->.
    { unfold body, update_order, matched. rewrite bind_run. cbn [owner_lookup user].
      cbn [mret orm_ret]. rewrite bind_run. cbn [query fst snd].
      by destruct (order_error order _). }
    cbn [snd]. destruct (order_error order _) as [exception|]; [by destruct d|].
    rewrite IH. reflexivity. }
  by destruct (update_rows_until _ _ _ _).2.
Qed.

Lemma ContentOrderView_run_until u (request_json : list (pk * Z)) d :
  ContentOrderView (request_of u POST) request_json d
  = (set_contents
       (λ _, (update_rows_until (λ K, content_owner d K = Some (user_id u))
                set_content_order (contents d) request_json).1) d,
     match (update_rows_until (λ K, content_owner d K = Some (user_id u))
              set_content_order (contents d) request_json).2 with
     | Some exception => ServerError exception
     | None => JsonResponse [("saved", "OK")]
     end).
Proof.
  unfold ContentOrderView, ContentOrderView_post, respond. cbn [method].
  rewrite bind_run.
  assert (∀ d,
    for_each request_json
      (λ '(id, order),
         a ← owner_lookup (request_of u POST);
         qs ← query (λ d, filter (λ kv, kv.1 = id ∧ content_owner d kv.2 = Some a)
                            (contents d));
         update_order order qs
           (set_contents (queryset_update (set_content_order order) qs))) d
    = (set_contents
         (λ _, (update_rows_until (λ K, content_owner d K = Some (user_id u))
                  set_content_order (contents d) request_json).1) d,
       match (update_rows_until (λ K, content_owner d K = Some (user_id u))
                set_content_order (contents d) request_json).2 with
       | Some exception => Raise (ServerError exception)
       | None => Return ()
       end)) as ->.
  { clear d. set (body := λ '(id, order), _).
    induction request_json as [|[id order] rest IH]; intros d; [by destruct d|].
    cbn [for_each update_rows_until]. rewrite bind_run.
    assert (body (id, order) d
            = match order_error order
                      (matched (λ K, content_owner d K = Some (user_id u)) (contents d) (id, order))
              with
              | Some exception => (d, Raise (ServerError exception))
              | None => (set_contents (λ _, update_row (λ K, content_owner d K = Some (user_id u))
                                     set_content_order (contents d) (id, order)) d,
                         Return ())
              end) as ->.
    { unfold body, update_order, matched. rewrite bind_run. cbn [owner_lookup user].
      cbn [mret orm_ret]. rewrite bind_run. cbn [query fst snd].
      by destruct (order_error order _). }
    cbn [snd]. destruct (order_error order _) as [exception|]; [by destruct d|].
    rewrite IH. reflexivity. }
  by destruct (update_rows_until _ _ _ _).2.
Qed.

(** With accepted orders only, both views go through the whole body. *)
Lemma ModuleOrderView_run u (request_json : list (pk * Z)) d :
  Forall (λ p, order_accepted p.2) request_json →
  ModuleOrderView (request_of u POST) request_json d
  = (set_modules
       (λ table, foldl (update_row (λ M, module_owner d M = Some (user_id u))
                          set_module_order) table request_json) d,
     JsonResponse [("saved", "OK")]).
Proof.
  intros Haccepted. rewrite ModuleOrderView_run_until.
  by rewrite update_rows_until_accepted.
Qed.

Lemma ContentOrderView_run u (request_json : list (pk * Z)) d :
  Forall (λ p, order_accepted p.2) request_json →
  ContentOrderView (request_of u POST) request_json d
  = (set_contents
       (λ table, foldl (update_row (λ K, content_owner d K = Some (user_id u))
                          set_content_order) table request_json) d,
     JsonResponse [("saved", "OK")]).
Proof.
  intros Haccepted. rewrite ContentOrderView_run_until.
  by rewrite update_rows_until_accepted.
Qed.


(** ** Module formset *)

Lemma formset_is_valid_all d (course : pk) (rows : list ModuleForm) :
  formset_is_valid d course rows = true
  ↔ ∀ row, row ∈ rows → module_form_is_valid d course row = true.
Proof.
  unfold formset_is_valid. rewrite forallb_forall.
  split; intros Hall row Hrow; apply Hall; by apply list_elem_of_In.
Qed.

Lemma formset_is_valid_some d (course : pk) (rows : list ModuleForm) :
  formset_is_valid d course rows = false
  ↔ ∃ row, row ∈ rows ∧ module_form_is_valid d course row = false.
Proof.
  unfold formset_is_valid. induction rows as [|row rows IH]; cbn [forallb].
  - split; [done|]. intros (row & Hrow & _). by apply elem_of_nil in Hrow.
  - rewrite andb_false_iff, IH. split.
    + intros [Hrow|(row' & Hin & Hrow')].
      * exists row. split; [left|done].
      * exists row'. split; [by right|done].
    + intros (row' & [->|Hin]%elem_of_cons & Hrow'); [by left|].
      right. by exists row'.
Qed.

Lemma course_lookup_own u (id : pk) (C : Course) d :
  courses d !! id = Some C → course_owner C = user_id u →
  get_object_or_404
    (filter (λ kv, kv.1 = id ∧ course_owner kv.2 = user_id u) (courses d)) d
  = (d, Return (id, C)).
Proof.
  intros HC Ho. lookup_by_pk (λ x, course_owner x = user_id u).
  rewrite HC. by rewrite decide_True.
Qed.

(** Saving a formset stays inside the Course it is bound to: the other
    tables and the Modules of other Courses are as before. *)
Lemma save_existing_object_scope (course : pk) (row : ModuleForm) d (j : pk) (M : Module_) :
  modules d !! j = Some M → module_course M ≠ course →
  modules (save_existing_object course d row) !! j = Some M.
Proof.
  intros HM Hother. unfold save_existing_object.
  destruct (row_id row) as [i|]; [|done].
  destruct (modules d !! i) as [M'|] eqn:HM'; [|done].
  destruct (decide (module_course M' = course)) as [Hc|]; [|done].
  assert (i ≠ j) by (intros ->; congruence).
  destruct (row_DELETE row); cbn.
  - by rewrite lookup_delete_ne.
  - by rewrite lookup_insert_ne.
Qed.

Lemma save_new_object_scope (course : pk) (row : ModuleForm) d (j : pk) (M : Module_) :
  modules d !! j = Some M →
  modules (save_new_object course d row) !! j = Some M.
Proof.
  intros HM. unfold save_new_object.
  destruct (row_id row); [done|]. destruct (row_DELETE row); [done|]. cbn.
  rewrite lookup_insert_ne; [done|]. intros Hj.
  pose proof (is_fresh (dom (modules d))) as Hfresh.
  rewrite Hj in Hfresh. apply Hfresh, elem_of_dom. by eexists.
Qed.

Lemma formset_save_scope (course : pk) (rows : list ModuleForm) d (j : pk) (M : Module_) :
  modules d !! j = Some M → module_course M ≠ course →
  modules (formset_save course rows d) !! j = Some M.
Proof.
  intros HM Hother. unfold formset_save.
  assert (∀ rows' d', modules d' !! j = Some M →
            modules (foldl (save_existing_object course) d' rows') !! j = Some M)
    as Hexisting.
  { induction rows' as [|row rows' IH]; intros d' HM'; [done|].
    cbn [foldl]. apply IH. by apply save_existing_object_scope. }
  assert (∀ rows' d', modules d' !! j = Some M →
            modules (foldl (save_new_object course) d' rows') !! j = Some M)
    as Hnew.
  { induction rows' as [|row rows' IH]; intros d' HM'; [done|].
    cbn [foldl]. apply IH. by apply save_new_object_scope. }
  by apply Hnew, Hexisting.
Qed.

(** C7: a POST of the module formset of a Course the actor owns either
    saves the whole set and redirects to the course list, when every row is
    valid, or saves nothing and renders the formset again with its
    errors, when some row is not. *)
Theorem module_formset_all_or_nothing u (c : pk) (C : Course)
    (data : list ModuleForm) d :
  courses d !! c = Some C →
  course_owner C = user_id u →
  ((∀ row, row ∈ data → module_form_is_valid d c row = true) →
     CourseModuleUpdateView (request_of u POST) c data d
     = (formset_save c data d, HttpResponseRedirect manage_course_list))
  ∧ ((∃ row, row ∈ data ∧ module_form_is_valid d c row = false) →
       CourseModuleUpdateView (request_of u POST) c data d
       = (d, TemplateResponse "courses/manage/module/formset.html"
               (FormsetContext c true))).
Proof.
  intros HC Ho.
  assert (CourseModuleUpdateView (request_of u POST) c data d
          = if formset_is_valid d c data
            then (formset_save c data d, HttpResponseRedirect manage_course_list)
            else (d, TemplateResponse formset_template (FormsetContext c true))) as ->.
  { unfold CourseModuleUpdateView, CourseModuleUpdateView_dispatch. run.
    rewrite (course_lookup_own _ _ C) by done.
    unfold CourseModuleUpdateView_post. run.
    by destruct (formset_is_valid d c data). }
  split.
  - intros Hall%formset_is_valid_all. by rewrite Hall.
  - intros Hsome%formset_is_valid_some. by rewrite Hsome.
Qed.

(** ** Polymorphic content *)

Lemma module_lookup_own u (id : pk) (M : Module_) d :
  modules d !! id = Some M → module_owner d M = Some (user_id u) →
  get_object_or_404
    (filter (λ kv, kv.1 = id ∧ module_owner d kv.2 = Some (user_id u)) (modules d)) d
  = (d, Return (id, M)).
Proof.
  intros HM Ho. lookup_by_pk (λ x, module_owner d x = Some (user_id u)).
  rewrite HM. by rewrite decide_True.
Qed.

Lemma item_lookup_own u (k : item_kind) (i : pk) (old : Item) d :
  items d k !! i = Some old → item_owner old = user_id u →
  get_object_or_404
    (filter (λ kv, kv.1 = i ∧ item_owner kv.2 = user_id u) (items d k)) d
  = (d, Return (i, old)).
Proof.
  intros Hi Ho. lookup_by_pk (λ x, item_owner x = user_id u).
  rewrite Hi. by rewrite decide_True.
Qed.

Lemma content_create_run u (module_id : pk) (M : Module_) (model_name : string)
    (k : item_kind) (data : ItemForm) d :
  modules d !! module_id = Some M → module_owner d M = Some (user_id u) →
  get_model model_name = Some k →
  item_form_is_valid d k data = true →
  ContentCreateUpdateView (request_of u POST) module_id model_name None data d
  = (let i := fresh (dom (items d k)) in
     let d1 := set_items k <[i := saved_item (user_id u) data]> d in
     set_contents <[fresh (dom (contents d1)) :=
                      {| content_module := module_id; content_item := (k, i);
                         content_order := default_content_order d1 module_id |}]> d1,
     HttpResponseRedirect (module_content_list module_id)).
Proof.
  intros HM Ho Hk Hvalid.
  unfold ContentCreateUpdateView, ContentCreateUpdateView_dispatch. run.
  rewrite (module_lookup_own _ _ M) by done. run. rewrite Hk.
  unfold ContentCreateUpdateView_post, get_form. run.
  rewrite Hvalid. run. reflexivity.
Qed.

Lemma content_update_run u (module_id : pk) (M : Module_) (model_name : string)
    (k : item_kind) (i : pk) (old : Item) (data : ItemForm) d :
  modules d !! module_id = Some M → module_owner d M = Some (user_id u) →
  get_model model_name = Some k →
  items d k !! i = Some old → item_owner old = user_id u →
  item_form_is_valid d k data = true →
  ContentCreateUpdateView (request_of u POST) module_id model_name (Some i) data d
  = (set_items k <[i := saved_item (user_id u) data]> d,
     HttpResponseRedirect (module_content_list module_id)).
Proof.
  intros HM Ho Hk Hi Hio Hvalid.
  unfold ContentCreateUpdateView, ContentCreateUpdateView_dispatch. run.
  rewrite (module_lookup_own _ _ M) by done. run. rewrite Hk. run.
  rewrite (item_lookup_own _ _ _ old) by done. run.
  unfold ContentCreateUpdateView_post, get_form. run.
  rewrite Hvalid. run. reflexivity.
Qed.

Lemma set_items_lookup (k : item_kind) (f : gmap pk Item → gmap pk Item) d :
  items (set_items k f d) k = f (items d k).
Proof. cbn. by rewrite decide_True. Qed.

Lemma set_items_lookup_ne (k k' : item_kind) (f : gmap pk Item → gmap pk Item) d :
  k' ≠ k → items (set_items k f d) k' = items d k'.
Proof. intros Hne. cbn. by rewrite decide_False. Qed.

(** C8: a valid content POST through a Module of a Course the actor owns
    saves the typed item with the actor as its owner and redirects to the
    content list of that Module; without an id the item is a new row and
    exactly one Content record is added, linking it to the Module; with the
    id of an item of the actor the item is rewritten in place and the
    Content table is as before. *)
Theorem content_post_stamps_owner_and_wraps_new_item u (module_id : pk)
    (M : Module_) (model_name : string) (k : item_kind) (id : option pk)
    (data : ItemForm) d :
  modules d !! module_id = Some M →
  module_owner d M = Some (user_id u) →
  get_model model_name = Some k →
  (∀ i, id = Some i → ∃ old, items d k !! i = Some old ∧ item_owner old = user_id u) →
  item_form_is_valid d k data = true →
  let after :=
    ContentCreateUpdateView (request_of u POST) module_id model_name id data d in
  let i := default (fresh (dom (items d k))) id in
  after.2 = HttpResponseRedirect (module_content_list module_id)
  ∧ items after.1 k !! i = Some (saved_item (user_id u) data)
  ∧ item_owner <$> items after.1 k !! i = Some (user_id u)
  ∧ (∀ k' i', (k', i') ≠ (k, i) → items after.1 k' !! i' = items d k' !! i')
  ∧ (id = None →
       items d k !! i = None
       ∧ ∃ j order,
           contents d !! j = None
           ∧ contents after.1
             = <[j := {| content_module := module_id; content_item := (k, i);
                         content_order := order |}]> (contents d)
           ∧ size (contents after.1) = S (size (contents d)))
  ∧ (is_Some id → contents after.1 = contents d)
  ∧ modules after.1 = modules d
  ∧ courses after.1 = courses d.
Proof.
  intros HM Ho Hk Hobj Hvalid. cbv zeta.
  assert (∀ i d', ∀ k' i', (k', i') ≠ (k, i) →
            items (set_items k <[i := saved_item (user_id u) data]> d') k' !! i'
            = items d' k' !! i') as Hothers.
  { intros i d' k' i' Hne. destruct (decide (k' = k)) as [->|Hk'].
    - rewrite set_items_lookup. rewrite lookup_insert_ne; [done|]. congruence.
    - by rewrite set_items_lookup_ne. }
  destruct id as [i|]; cbv [default from_option Datatypes.id].
  - destruct (Hobj i eq_refl) as (old & Hi & Hio).
    rewrite (content_update_run _ _ M _ k i old) by done.
    cbn [fst snd]. rewrite set_items_lookup, lookup_insert_eq.
    split_and!; try done. apply Hothers.
  - rewrite (content_create_run _ _ M _ k) by done.
    cbv zeta. cbn [fst snd set_contents items contents modules courses].
    rewrite set_items_lookup, lookup_insert_eq.
    split_and!; try done; try apply Hothers; try (by intros [? ?]).
    intros _. split; [apply not_elem_of_dom, is_fresh|].
    eexists _, _. split_and!; [|reflexivity|].
    + apply not_elem_of_dom. apply (is_fresh (dom (contents d))).
    + rewrite map_size_insert_None; [done|].
      apply not_elem_of_dom. apply (is_fresh (dom (contents d))).
Qed.


(** ** Public catalog *)

Lemma annotate_total_courses_lookup d (s : pk) :
  annotate_total_courses d !! s
  = (λ S, (S, size (filter (λ kv, course_subject kv.2 = s) (courses d))))
      <$> subjects d !! s.
Proof.
  unfold annotate_total_courses. rewrite map_lookup_imap.
  by destruct (subjects d !! s).
Qed.

Lemma annotate_total_modules_lookup d (c : pk) :
  annotate_total_modules d !! c
  = (λ C, (C, size (filter (λ kv, module_course kv.2 = c) (modules d))))
      <$> courses d !! c.
Proof.
  unfold annotate_total_modules. rewrite map_lookup_imap.
  by destruct (courses d !! c).
Qed.

(** C9: the public catalog, for any visitor, signed in or not.  Every
    Subject comes with the number of its Courses and every Course with the
    number of its Modules.  Without a slug all Courses are listed; with the
    slug of a Subject exactly the Courses of that Subject are, next to the
    same full Subject list; with a slug no Subject has, the answer is a
    404.  The store is only read. *)
Theorem catalog_counts_and_subject_filter (visitor : option User) d :
  let req := {| user := visitor; method := GET |} in
  let subject_list := annotate_total_courses d in
  let course_list := annotate_total_modules d in
  (∀ s, subject_list !! s
        = (λ S, (S, size (filter (λ kv, course_subject kv.2 = s) (courses d))))
            <$> subjects d !! s)
  ∧ (∀ c, course_list !! c
          = (λ C, (C, size (filter (λ kv, module_course kv.2 = c) (modules d))))
              <$> courses d !! c)
  ∧ CourseListView req None d
    = (d, TemplateResponse "courses/course/list.html"
            (CatalogContext subject_list None course_list))
  ∧ (∀ slug s S,
       slug ≠ "" →
       subjects d !! s = Some S → subject_slug S = slug →
       (∀ s' S', subjects d !! s' = Some S' → subject_slug S' = slug → s' = s) →
       ∃ shown,
         CourseListView req (Some slug) d
         = (d, TemplateResponse "courses/course/list.html"
                 (CatalogContext subject_list (Some s) shown))
         ∧ ∀ c row, shown !! c = Some row
                    ↔ course_list !! c = Some row ∧ course_subject row.1 = s)
  ∧ (∀ slug,
       slug ≠ "" →
       (∀ s S, subjects d !! s = Some S → subject_slug S ≠ slug) →
       CourseListView req (Some slug) d = (d, Http404)).
Proof.
  cbv zeta. split_and!.
  - apply annotate_total_courses_lookup.
  - apply annotate_total_modules_lookup.
  - reflexivity.
  - intros slug s S Hslug HS HSslug Hunique. eexists. split.
    + unfold CourseListView, CourseListView_get. run.
      rewrite decide_False by done. run.
      rewrite (get_object_or_404_at _ s).
      2: { intros j x [Hj Hx]%map_lookup_filter_Some. by apply (Hunique j x). }
      rewrite (map_lookup_filter_Some_2 _ _ s S) by done. run. reflexivity.
    + intros c row. by rewrite map_lookup_filter_Some.
  - intros slug Hslug Hnone.
    unfold CourseListView, CourseListView_get. run.
    rewrite decide_False by done. run.
    assert (filter (λ kv : pk * Subject, subject_slug kv.2 = slug) (subjects d) = ∅)
      as ->.
    { apply map_eq. intros s. rewrite lookup_empty.
      apply map_lookup_filter_None_2. right. intros S HS HSslug.
      by apply (Hnone s S). }
    unfold get_object_or_404. by rewrite map_to_list_empty.
Qed.

(** ** What the owner of a Course gets from update and delete

    Neither lemma mentions a permission grant: [CourseUpdateView] and
    [CourseDeleteView] set [permission_required], but the mixin that reads
    it is not among their bases. *)

Lemma CourseUpdateView_owner u (c : pk) (C : Course) (form : CourseForm) d :
  courses d !! c = Some C → course_owner C = user_id u →
  course_form_is_valid d (Some c) form = true →
  CourseUpdateView (request_of u POST) c form d
  = (set_courses <[c := {| course_owner := user_id u;
                           course_subject := form_subject form;
                           course_title := form_title form;
                           course_slug := form_slug form;
                           course_overview := form_overview form |}]> d,
     HttpResponseRedirect manage_course_list).
Proof.
  intros HC Ho Hvalid. unfold CourseUpdateView, as_view.
  cbn [dispatch mro CourseUpdateView_class]. run.
  unfold UpdateView_post. run.
  rewrite (get_object_own _ _ _ _ C) by (done || set_solver). run.
  rewrite Hvalid. unfold form_valid. run.
  rewrite bool_decide_eq_true_2 by set_solver. run. reflexivity.
Qed.

Lemma CourseDeleteView_owner u (c : pk) (C : Course) d :
  courses d !! c = Some C → course_owner C = user_id u →
  CourseDeleteView (request_of u POST) c d
  = (delete_course c d, HttpResponseRedirect manage_course_list).
Proof.
  intros HC Ho. unfold CourseDeleteView, as_view.
  cbn [dispatch mro CourseDeleteView_class]. run.
  unfold DeleteView_post. run.
  rewrite (get_object_own _ _ _ _ C) by (done || set_solver). run. reflexivity.
Qed.

(** X2: the create view, the one view whose bases include the
    permission mixin, refuses a signed-in actor without the add grant on
    GET and on POST, and leaves the store alone. *)
Lemma CourseCreateView_without_grant u m (form : CourseForm) d :
  has_perm u "courses.add_course" = false →
  CourseCreateView (request_of u m) form d = (d, PermissionDenied).
Proof.
  intros Hperm. unfold CourseCreateView, as_view.
  cbn [dispatch mro CourseCreateView_class permission_required has_permission user].
  rewrite Hperm. reflexivity.
Qed.

(** ** Requests without a signed-in actor *)

(** X1: the Course views send a visitor who is not signed in to the
    login page, on GET and on POST, and leave the store alone; the create
    view does so too, its permission check coming first. *)
Lemma course_views_require_login m (c : pk) (form : CourseForm) d :
  ManageCourseListView {| user := None; method := m |} d
  = (d, HttpResponseRedirect login)
  ∧ CourseCreateView {| user := None; method := m |} form d
    = (d, HttpResponseRedirect login)
  ∧ CourseUpdateView {| user := None; method := m |} c form d
    = (d, HttpResponseRedirect login)
  ∧ CourseDeleteView {| user := None; method := m |} c d
    = (d, HttpResponseRedirect login).
Proof. done. Qed.

(** The other views have no such check; where they look a row up by its
    owner, the anonymous user makes the lookup itself raise. *)
Lemma anonymous_owner_lookup_raises (c : pk) (data : list ModuleForm)
    (model_name : string) (id : option pk) (form : ItemForm)
    (pair : pk * Z) (request_json : list (pk * Z)) m d :
  CourseModuleUpdateView {| user := None; method := m |} c data d
  = (d, ServerError "TypeError")
  ∧ ContentCreateUpdateView {| user := None; method := m |} c model_name id form d
    = (d, ServerError "TypeError")
  ∧ ContentDeleteView {| user := None; method := POST |} c d
    = (d, ServerError "TypeError")
  ∧ ModuleOrderView {| user := None; method := POST |} (pair :: request_json) d
    = (d, ServerError "TypeError")
  ∧ ContentOrderView {| user := None; method := POST |} (pair :: request_json) d
    = (d, ServerError "TypeError").
Proof. destruct pair. done. Qed.

(** C3 (the code departs from it): the two ordering views take a POST
    from a visitor who is not signed in and, for the empty mapping, answer
    it with the success payload like any other; no view outside the Course
    CRUD views checks authentication. *)
Theorem anonymous_order_post_is_answered d :
  ModuleOrderView {| user := None; method := POST |} [] d
  = (d, JsonResponse [("saved", "OK")])
  ∧ ContentOrderView {| user := None; method := POST |} [] d
    = (d, JsonResponse [("saved", "OK")]).
Proof. done. Qed.

(** ** Unknown type tags *)

Lemma get_model_None (model_name : string) :
  get_model model_name = None ↔ model_name ∉ ["text"; "video"; "image"; "file"].
Proof.
  unfold get_model. case_bool_decide as Hin; [|done].
  split; [|done]. intros Hnone. exfalso.
  unfold apps_get_model in Hnone. repeat case_decide; try discriminate.
  repeat (apply elem_of_cons in Hin as [?|Hin]; [done|]).
  by apply elem_of_nil in Hin.
Qed.

(** With a tag outside the allow-list the view goes on with no model: the
    Module is looked up first, and then looking the item up (with an id) or
    building the form (without one) raises. *)
Lemma unknown_model_name_raises u m (module_id : pk) (M : Module_)
    (model_name : string) (id : option pk) (data : ItemForm) d :
  modules d !! module_id = Some M → module_owner d M = Some (user_id u) →
  model_name ∉ ["text"; "video"; "image"; "file"] →
  ContentCreateUpdateView (request_of u m) module_id model_name id data d
  = (d, ServerError (if id is Some _ then "ValueError" else "AttributeError")).
Proof.
  intros HM Ho Hname%get_model_None.
  unfold ContentCreateUpdateView, ContentCreateUpdateView_dispatch. run.
  rewrite (module_lookup_own _ _ M) by done. run. rewrite Hname.
  destruct id; run; [done|].
  by destruct m.
Qed.

(** ** Content deletion *)

(** For the owner the two rows go, and then the redirect is never built:
    the name it needs is unbound. *)
Lemma ContentDeleteView_owner u (id : pk) (K : Content) (item : Item) d :
  contents d !! id = Some K → content_owner d K = Some (user_id u) →
  items d (content_item K).1 !! (content_item K).2 = Some item →
  ContentDeleteView (request_of u POST) id d
  = (set_contents (delete id)
       (set_items (content_item K).1 (delete (content_item K).2) d),
     ServerError "NameError").
Proof.
  intros HK Ho Hitem. unfold ContentDeleteView, ContentDeleteView_post. run.
  lookup_by_pk (λ x, content_owner d x = Some (user_id u)).
  rewrite HK. rewrite decide_True by done. run.
  rewrite Hitem. run. reflexivity.
Qed.

(** ** Computations that only read *)

Lemma reads_ret {A} (a : A) : reads (mret a).
Proof. by intros d. Qed.

Lemma reads_raise {A} (r : response) : reads (raise (A := A) r).
Proof. by intros d. Qed.

Lemma reads_query {A} (f : db → A) : reads (query f).
Proof. by intros d. Qed.

Lemma reads_bind {A B} (c : orm A) (f : A → orm B) :
  reads c → (∀ a, reads (f a)) → reads (c ≫= f).
Proof.
  intros Hc Hf d. rewrite bind_run. specialize (Hc d).
  destruct (c d) as [d' [a|r]]; cbn in Hc; subst d'; [apply Hf|done].
Qed.

Lemma reads_get_object_or_404 {A} (qs : gmap pk A) : reads (get_object_or_404 qs).
Proof.
  intros d. unfold get_object_or_404.
  by destruct (map_to_list qs) as [|x [|y l]].
Qed.

Lemma reads_owner_lookup (req : request) : reads (owner_lookup req).
Proof. intros d. unfold owner_lookup. by destruct (user req). Qed.

Lemma reads_handle_no_permission (req : request) : reads (handle_no_permission req).
Proof. intros d. unfold handle_no_permission. by destruct (is_authenticated req). Qed.

Lemma reads_respond (c : orm response) d : reads c → (respond c d).1 = d.
Proof.
  intros Hc. unfold respond. specialize (Hc d).
  by destruct (c d) as [d' [a|r]].
Qed.

Lemma reads_dispatch (bases : list klass) (perm : option string) (req : request)
    (handler : orm response) :
  reads handler → reads (dispatch bases perm req handler).
Proof.
  intros Hhandler. induction bases as [|b bases IH]; [done|].
  destruct b; cbn [dispatch]; try done.
  - destruct perm as [p|]; [|apply reads_raise].
    destruct (has_permission req p); [done|apply reads_handle_no_permission].
  - destruct (is_authenticated req); [done|apply reads_handle_no_permission].
Qed.

Lemma reads_get_queryset (cls : view_class) (req : request) :
  reads (get_queryset cls req).
Proof.
  unfold get_queryset. apply reads_bind; [apply reads_query|]. intros qs.
  case_bool_decide; [|apply reads_ret].
  apply reads_bind; [apply reads_owner_lookup|]. intros a. apply reads_ret.
Qed.

Lemma reads_get_object (cls : view_class) (req : request) (id : pk) :
  reads (get_object cls req id).
Proof.
  unfold get_object. apply reads_bind; [apply reads_get_queryset|].
  intros qs. apply reads_get_object_or_404.
Qed.

(** Stepping through a computation built from parts that only read. *)
Ltac reads_leaf :=
  first
    [ apply reads_ret | apply reads_raise | apply reads_query
    | apply reads_get_object_or_404 | apply reads_owner_lookup
    | apply reads_get_object | apply reads_get_queryset ].

Ltac reads_step :=
  first [ reads_leaf | apply reads_bind; [reads_leaf | intros ?] ].

(** X8: a GET changes nothing.  Whoever sends it and whatever it names,
    every view of the file leaves the store as it found it on GET. *)
Theorem get_requests_change_nothing (visitor : option User) d :
  let req := {| user := visitor; method := GET |} in
  (ManageCourseListView req d).1 = d
  ∧ (∀ form, (CourseCreateView req form d).1 = d)
  ∧ (∀ c form, (CourseUpdateView req c form d).1 = d)
  ∧ (∀ c, (CourseDeleteView req c d).1 = d)
  ∧ (∀ c data, (CourseModuleUpdateView req c data d).1 = d)
  ∧ (∀ module_id model_name id data,
       (ContentCreateUpdateView req module_id model_name id data d).1 = d)
  ∧ (∀ id, (ContentDeleteView req id d).1 = d)
  ∧ (∀ module_id, (ModuleContentListView req module_id d).1 = d)
  ∧ (∀ request_json, (ModuleOrderView req request_json d).1 = d)
  ∧ (∀ request_json, (ContentOrderView req request_json d).1 = d)
  ∧ (∀ subject, (CourseListView req subject d).1 = d)
  ∧ (∀ c, (CourseDetailView req c d).1 = d).
Proof.
  cbv zeta. split_and!; intros.
  - apply reads_respond, reads_dispatch. unfold ListView_get. repeat reads_step.
  - apply reads_respond, reads_dispatch. apply reads_ret.
  - apply reads_respond, reads_dispatch. unfold UpdateView_get. repeat reads_step.
  - apply reads_respond, reads_dispatch. unfold DeleteView_get. repeat reads_step.
  - apply reads_respond. unfold CourseModuleUpdateView_dispatch.
    repeat reads_step.
  - apply reads_respond. unfold ContentCreateUpdateView_dispatch.
    do 3 reads_step. cbv zeta. apply reads_bind.
    + destruct id as [i|]; [|apply reads_ret].
      destruct (get_model model_name); repeat reads_step.
    + intros obj. cbn [method]. unfold ContentCreateUpdateView_get, get_form.
      destruct (get_model model_name); repeat reads_step.
  - done.
  - apply reads_respond. unfold ModuleContentListView_get. repeat reads_step.
  - done.
  - done.
  - apply reads_respond. unfold CourseListView_get. cbn [method].
    do 2 reads_step. destruct subject as [slug|]; [|apply reads_ret].
    case_decide; repeat reads_step.
  - unfold CourseDetailView. cbn [method].
    pose proof (reads_bind (query courses)
                  (λ qs, get_object_or_404 (filter (λ kv, kv.1 = c) qs))
                  (reads_query _) (λ qs, reads_get_object_or_404 _) d) as Hread.
    destruct ((query courses ≫= _) d) as [d' [object|r]]; exact Hread.
Qed.

Lemma CourseListView_unchanged (req : request) (subject : option string) d :
  (CourseListView req subject d).1 = d.
Proof.
  unfold CourseListView. apply reads_respond.
  destruct (method req); [|apply reads_ret].
  unfold CourseListView_get. do 2 reads_step.
  destruct subject as [slug|]; [|apply reads_ret].
  case_decide; repeat reads_step.
Qed.

Lemma CourseDetailView_unchanged (req : request) (c : pk) d :
  (CourseDetailView req c d).1 = d.
Proof.
  unfold CourseDetailView. destruct (method req); [|done].
  pose proof (reads_bind (query courses)
                (λ qs, get_object_or_404 (filter (λ kv, kv.1 = c) qs))
                (reads_query _) (λ qs, reads_get_object_or_404 _) d) as Hread.
  destruct ((query courses ≫= _) d) as [d' [object|r]]; exact Hread.
Qed.

(** X9: a request of a visitor who is not signed in changes nothing, at any
    view and with any method.  The Course views turn it away, and in the
    views without an access mixin every write sits behind a lookup by
    owner, which the anonymous user cannot get past. *)
Theorem anonymous_requests_change_nothing m d :
  let req := {| user := None; method := m |} in
  (ManageCourseListView req d).1 = d
  ∧ (∀ form, (CourseCreateView req form d).1 = d)
  ∧ (∀ c form, (CourseUpdateView req c form d).1 = d)
  ∧ (∀ c, (CourseDeleteView req c d).1 = d)
  ∧ (∀ c data, (CourseModuleUpdateView req c data d).1 = d)
  ∧ (∀ module_id model_name id data,
       (ContentCreateUpdateView req module_id model_name id data d).1 = d)
  ∧ (∀ id, (ContentDeleteView req id d).1 = d)
  ∧ (∀ module_id, (ModuleContentListView req module_id d).1 = d)
  ∧ (∀ request_json, (ModuleOrderView req request_json d).1 = d)
  ∧ (∀ request_json, (ContentOrderView req request_json d).1 = d)
  ∧ (∀ subject, (CourseListView req subject d).1 = d)
  ∧ (∀ c, (CourseDetailView req c d).1 = d).
Proof.
  cbv zeta. split_and!; intros; try done.
  - by destruct m.
  - by destruct m.
  - destruct m; [done|]. by destruct request_json as [|[id order] rest].
  - destruct m; [done|]. by destruct request_json as [|[id order] rest].
  - apply CourseListView_unchanged.
  - apply CourseDetailView_unchanged.
Qed.

(** ** Course CRUD *)

(** X7: the owner's list is exactly the actor's Courses: a Course is on it
    if and only if it is in the store with the actor as owner; the store is
    only read. *)
Theorem owner_list_is_exactly_own_courses u d :
  ∃ qs, ManageCourseListView (request_of u GET) d
        = (d, TemplateResponse "courses/manage/course/list.html"
                (CourseListContext qs))
        ∧ ∀ c C, qs !! c = Some C
                 ↔ courses d !! c = Some C ∧ course_owner C = user_id u.
Proof.
  eexists. split; [reflexivity|].
  intros c C. by rewrite map_lookup_filter_Some.
Qed.

Lemma CourseCreateView_granted u (form : CourseForm) d :
  has_perm u "courses.add_course" = true →
  course_form_is_valid d None form = true →
  CourseCreateView (request_of u POST) form d
  = (set_courses <[fresh (dom (courses d)) :=
                     {| course_owner := user_id u;
                        course_subject := form_subject form;
                        course_title := form_title form;
                        course_slug := form_slug form;
                        course_overview := form_overview form |}]> d,
     HttpResponseRedirect manage_course_list).
Proof.
  intros Hperm Hvalid. unfold CourseCreateView, as_view.
  cbn [dispatch mro CourseCreateView_class permission_required has_permission user].
  rewrite Hperm. run. unfold CreateView_post. run. rewrite Hvalid.
  unfold form_valid. run.
  rewrite bool_decide_eq_true_2.
  2: { cbn. repeat (first [apply list_elem_of_here | apply list_elem_of_further]). }
  run. reflexivity.
Qed.

(** X3: a valid create by an actor holding the add grant stores one new
    Course under a key that was free, with the actor as its owner and the
    submitted fields; every Course that was there is as before, no other
    table is touched, and the answer is the redirect to the course list. *)
Theorem course_create_stamps_owner u (form : CourseForm) d :
  has_perm u "courses.add_course" = true →
  course_form_is_valid d None form = true →
  let after := CourseCreateView (request_of u POST) form d in
  let c := fresh (dom (courses d)) in
  after.2 = HttpResponseRedirect manage_course_list
  ∧ courses d !! c = None
  ∧ courses after.1 !! c
    = Some {| course_owner := user_id u; course_subject := form_subject form;
              course_title := form_title form; course_slug := form_slug form;
              course_overview := form_overview form |}
  ∧ (∀ j, j ≠ c → courses after.1 !! j = courses d !! j)
  ∧ size (courses after.1) = S (size (courses d))
  ∧ after.1 = set_courses (λ _, courses after.1) d.
Proof.
  intros Hperm Hvalid. cbv zeta. rewrite CourseCreateView_granted by done.
  cbn [fst snd set_courses courses].
  assert (courses d !! fresh (dom (courses d)) = None) as Hfree
    by apply not_elem_of_dom, is_fresh.
  split_and!; try done.
  - by rewrite lookup_insert_eq.
  - intros j Hj. by rewrite lookup_insert_ne.
  - by rewrite map_size_insert_None.
Qed.

(** X4: create, then list.  The Course an actor has just created is on that
    actor's list, and on the list of no actor with another id. *)
Theorem created_course_is_listed_for_its_owner_only u v (form : CourseForm) d :
  has_perm u "courses.add_course" = true →
  course_form_is_valid d None form = true →
  user_id v ≠ user_id u →
  let after := (CourseCreateView (request_of u POST) form d).1 in
  let c := fresh (dom (courses d)) in
  (∃ qs, (ManageCourseListView (request_of u GET) after).2
         = TemplateResponse "courses/manage/course/list.html" (CourseListContext qs)
         ∧ course_title <$> qs !! c = Some (form_title form))
  ∧ (∃ qs, (ManageCourseListView (request_of v GET) after).2
           = TemplateResponse "courses/manage/course/list.html" (CourseListContext qs)
           ∧ qs !! c = None).
Proof.
  intros Hperm Hvalid Hv. cbv zeta. rewrite CourseCreateView_granted by done.
  cbn [fst]. split; (eexists; split; [reflexivity|]).
  - rewrite (map_lookup_filter_Some_2 _ _ (fresh (dom (courses d)))
               {| course_owner := user_id u; course_subject := form_subject form;
                  course_title := form_title form; course_slug := form_slug form;
                  course_overview := form_overview form |}); [done| |done].
    cbn. by rewrite lookup_insert_eq.
  - apply map_lookup_filter_None_2. right. intros C.
    cbn. rewrite lookup_insert_eq. intros [= <-]. cbn. congruence.
Qed.

(** X5: a submission that does not validate is not saved.  The create view
    (for an actor with the grant) and the update view (for the owner) both
    answer with the form and its errors and leave the store as it was. *)
Theorem invalid_course_form_saves_nothing u (form : CourseForm) d :
  (has_perm u "courses.add_course" = true →
   course_form_is_valid d None form = false →
   CourseCreateView (request_of u POST) form d
   = (d, TemplateResponse "courses/manage/course/form.html"
           (CourseFormContext None true)))
  ∧ (∀ c C, courses d !! c = Some C → course_owner C = user_id u →
       course_form_is_valid d (Some c) form = false →
       CourseUpdateView (request_of u POST) c form d
       = (d, TemplateResponse "courses/manage/course/form.html"
               (CourseFormContext (Some c) true))).
Proof.
  split.
  - intros Hperm Hvalid. unfold CourseCreateView, as_view.
    cbn [dispatch mro CourseCreateView_class permission_required has_permission user].
    rewrite Hperm. run. unfold CreateView_post. run. by rewrite Hvalid.
  - intros c C HC Ho Hvalid. unfold CourseUpdateView, as_view.
    cbn [dispatch mro CourseUpdateView_class]. run.
    unfold UpdateView_post. run.
    rewrite (get_object_own _ _ _ _ C).
    2: { cbn. repeat (first [apply list_elem_of_here | apply list_elem_of_further]). }
    2,3: done.
    run. by rewrite Hvalid.
Qed.

(** X6: a valid update by the owner rewrites the four form fields of that
    one Course, which stays the actor's; every other Course and every other
    table is as before. *)
Theorem course_update_touches_one_row u (c : pk) (C : Course) (form : CourseForm) d :
  courses d !! c = Some C → course_owner C = user_id u →
  course_form_is_valid d (Some c) form = true →
  let after := CourseUpdateView (request_of u POST) c form d in
  after.2 = HttpResponseRedirect manage_course_list
  ∧ courses after.1 !! c
    = Some {| course_owner := course_owner C; course_subject := form_subject form;
              course_title := form_title form; course_slug := form_slug form;
              course_overview := form_overview form |}
  ∧ (∀ j, j ≠ c → courses after.1 !! j = courses d !! j)
  ∧ dom (courses after.1) = dom (courses d)
  ∧ after.1 = set_courses (λ _, courses after.1) d.
Proof.
  intros HC Ho Hvalid. cbv zeta. rewrite (CourseUpdateView_owner _ _ C) by done.
  cbn [fst snd set_courses courses]. split_and!; try done.
  - by rewrite lookup_insert_eq, Ho.
  - intros j Hj. by rewrite lookup_insert_ne.
  - by apply dom_insert_lookup_L.
Qed.

(** ** Polymorphic content, beyond the valid POST *)

(** X10: the tags and the models correspond one to one.  Every typed model is
    resolved from its own tag, and a tag that resolves to a model is that
    model's tag, letter for letter. *)
Theorem get_model_round_trip (k : item_kind) (model_name : string) :
  get_model (model_name_of k) = Some k
  ∧ (get_model model_name = Some k → model_name = model_name_of k).
Proof.
  split; [by destruct k|].
  unfold get_model. case_bool_decide as Hin; [|done].
  unfold apps_get_model. repeat case_decide; subst; by intros [= <-].
Qed.

(** X11: a content submission that does not validate is not saved.  On the
    create path and on the update path alike, the store is as before (no
    typed item written, no Content record added) and the form is rendered
    again with its errors. *)
Theorem invalid_content_form_saves_nothing u (module_id : pk) (M : Module_)
    (model_name : string) (k : item_kind) (id : option pk) (data : ItemForm) d :
  modules d !! module_id = Some M →
  module_owner d M = Some (user_id u) →
  get_model model_name = Some k →
  (∀ i, id = Some i → ∃ old, items d k !! i = Some old ∧ item_owner old = user_id u) →
  item_form_is_valid d k data = false →
  ContentCreateUpdateView (request_of u POST) module_id model_name id data d
  = (d, TemplateResponse "courses/manage/content/form.html"
          (ContentFormContext ((λ i, (k, i)) <$> id) true)).
Proof.
  intros HM Ho Hk Hobj Hvalid.
  unfold ContentCreateUpdateView, ContentCreateUpdateView_dispatch. run.
  rewrite (module_lookup_own _ _ M) by done. run. rewrite Hk.
  destruct id as [i|]; run.
  - destruct (Hobj i eq_refl) as (old & Hi & Hio).
    rewrite (item_lookup_own _ _ _ old) by done. run.
    unfold ContentCreateUpdateView_post, get_form. run. by rewrite Hvalid.
  - unfold ContentCreateUpdateView_post, get_form. run. by rewrite Hvalid.
Qed.

(** X12: on the update path an id that names no item of the actor, because
    the item is another actor's or because there is none, is answered with
    a 404 on GET and on POST, even through a Module of the actor, and
    nothing is written. *)
Theorem foreign_item_not_found u m (module_id : pk) (M : Module_)
    (model_name : string) (k : item_kind) (i : pk) (data : ItemForm) d :
  modules d !! module_id = Some M →
  module_owner d M = Some (user_id u) →
  get_model model_name = Some k →
  (∀ old, items d k !! i = Some old → item_owner old ≠ user_id u) →
  ContentCreateUpdateView (request_of u m) module_id model_name (Some i) data d
  = (d, Http404).
Proof.
  intros HM Ho Hk Hforeign.
  unfold ContentCreateUpdateView, ContentCreateUpdateView_dispatch. run.
  rewrite (module_lookup_own _ _ M) by done. run. rewrite Hk. run.
  lookup_by_pk (λ x, item_owner x = user_id u).
  destruct (items d k !! i) as [old|] eqn:Hi; [|done].
  rewrite decide_False; [done|]. by apply Hforeign.
Qed.

(** ** Content deletion, beyond the sample store *)

(** X13: for the owner, content deletion removes exactly two rows before it
    fails on the redirect: the Content record and the typed item it refers
    to.  Every other Content record and typed item, and the Module and
    Course tables, are as before. *)
Theorem content_delete_removes_two_rows u (id : pk) (K : Content) (item : Item) d :
  contents d !! id = Some K →
  content_owner d K = Some (user_id u) →
  items d (content_item K).1 !! (content_item K).2 = Some item →
  let after := ContentDeleteView (request_of u POST) id d in
  after.2 = ServerError "NameError"
  ∧ contents after.1 = delete id (contents d)
  ∧ items after.1 (content_item K).1 !! (content_item K).2 = None
  ∧ (∀ k i, (k, i) ≠ content_item K → items after.1 k !! i = items d k !! i)
  ∧ modules after.1 = modules d
  ∧ courses after.1 = courses d
  ∧ subjects after.1 = subjects d.
Proof.
  intros HK Ho Hitem. cbv zeta. rewrite (ContentDeleteView_owner _ _ K item) by done.
  cbn [fst snd set_contents contents modules courses subjects items].
  split_and!; try done.
  - rewrite set_items_lookup. apply lookup_delete_eq.
  - intros k i Hne. destruct (decide (k = (content_item K).1)) as [->|Hk].
    + rewrite set_items_lookup. rewrite lookup_delete_ne; [done|].
      intros Hi. apply Hne. rewrite <- Hi. by destruct (content_item K).
    + by rewrite set_items_lookup_ne.
Qed.

(** X14: content deletion removes nothing unless both rows are there.  An id
    of no Content record is a 404; a Content record whose typed item is
    gone makes the deletion of the item raise, before the Content record
    is touched. *)
Theorem content_delete_needs_both_rows u (id : pk) d :
  (contents d !! id = None →
   ContentDeleteView (request_of u POST) id d = (d, Http404))
  ∧ (∀ K, contents d !! id = Some K →
       content_owner d K = Some (user_id u) →
       items d (content_item K).1 !! (content_item K).2 = None →
       ContentDeleteView (request_of u POST) id d = (d, ServerError "AttributeError")).
Proof.
  split.
  - intros Hnone. unfold ContentDeleteView, ContentDeleteView_post. run.
    lookup_by_pk (λ x, content_owner d x = Some (user_id u)). by rewrite Hnone.
  - intros K HK Ho Hitem. unfold ContentDeleteView, ContentDeleteView_post. run.
    lookup_by_pk (λ x, content_owner d x = Some (user_id u)).
    rewrite HK. rewrite decide_True by done. run. rewrite Hitem. by run.
Qed.

(** ** Ordering, beyond mappings with distinct ids *)

(** Without the assumption that the ids are distinct: the pair that comes
    last for an id decides. *)
Lemma update_rows_lookup_last {A} (P : A → Prop) `{∀ x, Decision (P x)}
    (set : Z → A → A) (request_json : list (pk * Z)) (table : gmap pk A) (j : pk) :
  (∀ o x, P (set o x) ↔ P x) →
  (∀ o o' x, set o (set o' x) = set o x) →
  foldl (update_row P set) table request_json !! j
  = (λ x, match (list_to_map (reverse request_json) : gmap pk Z) !! j with
          | Some o => if decide (P x) then set o x else x
          | None => x
          end) <$> table !! j.
Proof.
  intros Hstable Hset.
  induction request_json as [|[id o] rest IH] using rev_ind.
  - cbn. by destruct (table !! j).
  - rewrite foldl_app, reverse_app. cbn [foldl reverse app list_to_map fst snd].
    rewrite update_row_lookup, IH. cbn [fst snd].
    destruct (table !! j) as [x|]; [|done]. cbn. f_equal.
    destruct (decide (j = id)) as [->|Hne].
    + rewrite lookup_insert_eq.
      destruct (list_to_map (reverse rest) !! id) as [o'|].
      * destruct (decide (P x)) as [HP|HP].
        -- rewrite decide_True by (split; [done|by apply Hstable]). apply Hset.
        -- by rewrite decide_False by (by intros [_ ?]).
      * destruct (decide (P x)) as [HP|HP].
        -- by rewrite decide_True.
        -- by rewrite decide_False by (by intros [_ ?]).
    + rewrite lookup_insert_ne by done.
      rewrite (decide_False (P := j = id ∧ _)); [done|]. by intros [? _].
Qed.

Lemma update_rows_twice {A} (P : A → Prop) `{∀ x, Decision (P x)}
    (set : Z → A → A) (request_json : list (pk * Z)) (table : gmap pk A) :
  (∀ o x, P (set o x) ↔ P x) →
  (∀ o o' x, set o (set o' x) = set o x) →
  foldl (update_row P set) (foldl (update_row P set) table request_json) request_json
  = foldl (update_row P set) table request_json.
Proof.
  intros Hstable Hset. apply map_eq. intros j.
  rewrite (update_rows_lookup_last P set request_json (foldl _ _ _)) by done.
  rewrite update_rows_lookup_last by done.
  destruct (table !! j) as [x|]; [|done]. cbn. f_equal.
  destruct (list_to_map (reverse request_json) !! j) as [o|]; [|done].
  destruct (decide (P x)) as [HP|HP].
  - rewrite decide_True by (by apply Hstable). apply Hset.
  - by rewrite decide_False.
Qed.

Lemma update_rows_permutation {A} (P : A → Prop) `{∀ x, Decision (P x)}
    (set : Z → A → A) (request_json request_json' : list (pk * Z))
    (table : gmap pk A) :
  (∀ o x, P (set o x) ↔ P x) →
  NoDup request_json.*1 →
  request_json ≡ₚ request_json' →
  foldl (update_row P set) table request_json
  = foldl (update_row P set) table request_json'.
Proof.
  intros Hstable Hnodup Hperm. apply map_eq. intros j.
  assert (NoDup request_json'.*1) as Hnodup' by (by rewrite <- Hperm).
  rewrite !update_rows_lookup by done.
  by rewrite (list_to_map_proper (M := gmap pk) request_json request_json' Hnodup Hperm).
Qed.

(** Whether a pair matches a row does not change while orders are
    written: the rows stay, and so does what the condition says of them. *)
Lemma matched_lookup {A} (P : A → Prop) `{∀ x, Decision (P x)}
    (table : gmap pk A) (pair : pk * Z) :
  matched P table pair = true ↔ ∃ x, table !! pair.1 = Some x ∧ P x.
Proof.
  unfold matched. rewrite bool_decide_eq_true, map_size_non_empty_iff. split.
  - intros (j & x & [Hj [Hi HP]]%map_lookup_filter_Some)%map_choose.
    cbn in Hi, HP. subst j. by exists x.
  - intros (x & Hx & HP) Hempty.
    assert (filter (λ kv : pk * A, kv.1 = pair.1 ∧ P kv.2) table !! pair.1 = Some x)
      as Hin by (by apply map_lookup_filter_Some_2).
    by rewrite Hempty, lookup_empty in Hin.
Qed.

Lemma matched_update_row {A} (P : A → Prop) `{∀ x, Decision (P x)}
    (set : Z → A → A) (table : gmap pk A) (written pair : pk * Z) :
  (∀ o x, P (set o x) ↔ P x) →
  matched P (update_row P set table written) pair = matched P table pair.
Proof.
  intros Hstable.
  apply eq_true_iff_eq. rewrite !matched_lookup, update_row_lookup.
  destruct (table !! pair.1) as [x|]; cbn.
  - split.
    + intros (y & [= <-] & Hy). exists x. split; [done|].
      case_decide; [by apply Hstable in Hy|done].
    + intros (y & [= <-] & Hy). eexists. split; [done|].
      case_decide; [by apply Hstable|done].
  - split; intros (y & [=] & _).
Qed.

Lemma matched_foldl {A} (P : A → Prop) `{∀ x, Decision (P x)}
    (set : Z → A → A) (written : list (pk * Z)) (table : gmap pk A) (pair : pk * Z) :
  (∀ o x, P (set o x) ↔ P x) →
  matched P (foldl (update_row P set) table written) pair = matched P table pair.
Proof.
  intros Hstable. revert table.
  induction written as [|p rest IH]; intros table; [done|].
  cbn [foldl]. rewrite IH. by apply matched_update_row.
Qed.

(** Which pairs of a body are written, and which exception ends it if any,
    is the same from every table that matches the same pairs. *)
Lemma update_rows_until_prefix {A} (P : A → Prop) `{∀ x, Decision (P x)}
    (set : Z → A → A) (request_json : list (pk * Z)) (table : gmap pk A) :
  (∀ o x, P (set o x) ↔ P x) →
  ∃ written exception,
    ∀ table', (∀ p, matched P table' p = matched P table p) →
      update_rows_until P set table' request_json
      = (foldl (update_row P set) table' written, exception).
Proof.
  intros Hstable. revert table.
  induction request_json as [|p rest IH]; intros table.
  - by exists [], None.
  - destruct (order_error p.2 (matched P table p)) as [e|] eqn:Herror.
    + exists [], (Some e). intros table' Hsame.
      cbn [update_rows_until foldl]. by rewrite Hsame, Herror.
    + destruct (IH (update_row P set table p)) as (written & exception & Hrest).
      exists (p :: written), exception. intros table' Hsame.
      cbn [update_rows_until foldl]. rewrite Hsame, Herror.
      apply Hrest. intros q. rewrite !matched_update_row by done. apply Hsame.
Qed.

Lemma update_rows_until_twice {A} (P : A → Prop) `{∀ x, Decision (P x)}
    (set : Z → A → A) (request_json : list (pk * Z)) (table : gmap pk A) :
  (∀ o x, P (set o x) ↔ P x) →
  (∀ o o' x, set o (set o' x) = set o x) →
  update_rows_until P set (update_rows_until P set table request_json).1 request_json
  = update_rows_until P set table request_json.
Proof.
  intros Hstable Hset.
  destruct (update_rows_until_prefix P set request_json table Hstable)
    as (written & exception & Hrun).
  rewrite (Hrun table) by done. cbn [fst].
  rewrite Hrun by (intros p; by apply matched_foldl).
  by rewrite update_rows_twice.
Qed.

Lemma update_rows_until_app {A} (P : A → Prop) `{∀ x, Decision (P x)}
    (set : Z → A → A) (before rest : list (pk * Z)) (table : gmap pk A) :
  Forall (λ p, order_accepted p.2) before →
  update_rows_until P set table (before ++ rest)
  = update_rows_until P set (foldl (update_row P set) table before) rest.
Proof.
  intros Haccepted. revert table.
  induction Haccepted as [|p before' Hp Hbefore IH]; intros table; [done|].
  cbn [app update_rows_until foldl]. rewrite order_error_accepted by done. apply IH.
Qed.

(** A pair whose order is refused ends the request where it stands. *)
Lemma ModuleOrderView_refused u (before after : list (pk * Z)) (id : pk) (order : Z)
    (exception : string) d :
  Forall (λ p, order_accepted p.2) before →
  order_error order
    (matched (λ M, module_owner d M = Some (user_id u)) (modules d) (id, order))
  = Some exception →
  ModuleOrderView (request_of u POST) (before ++ (id, order) :: after) d
  = ((ModuleOrderView (request_of u POST) before d).1, ServerError exception).
Proof.
  intros Haccepted Herror.
  rewrite ModuleOrderView_run_until, (ModuleOrderView_run u before) by done.
  rewrite update_rows_until_app by done. cbn [update_rows_until fst snd].
  rewrite matched_foldl by done. by rewrite Herror.
Qed.

Lemma ContentOrderView_refused u (before after : list (pk * Z)) (id : pk) (order : Z)
    (exception : string) d :
  Forall (λ p, order_accepted p.2) before →
  order_error order
    (matched (λ K, content_owner d K = Some (user_id u)) (contents d) (id, order))
  = Some exception →
  ContentOrderView (request_of u POST) (before ++ (id, order) :: after) d
  = ((ContentOrderView (request_of u POST) before d).1, ServerError exception).
Proof.
  intros Haccepted Herror.
  rewrite ContentOrderView_run_until, (ContentOrderView_run u before) by done.
  rewrite update_rows_until_app by done. cbn [update_rows_until fst snd].
  rewrite matched_foldl by done. by rewrite Herror.
Qed.

(** X15: when an id comes several times in an ordering body whose orders
    the order column takes, the last pair for it decides: an owned Module
    (Content) ends with the order of the last pair that names it and its
    other fields as before. *)
Theorem order_last_pair_wins u (before after : list (pk * Z)) (id : pk) (order : Z) d :
  id ∉ after.*1 →
  let request_json := (before ++ (id, order) :: after)%list in
  Forall (λ p, order_accepted p.2) request_json →
  (∀ M, modules d !! id = Some M → module_owner d M = Some (user_id u) →
     modules (ModuleOrderView (request_of u POST) request_json d).1 !! id
     = Some {| module_course := module_course M;
               module_title := module_title M;
               module_description := module_description M;
               module_order := order |})
  ∧ (∀ K, contents d !! id = Some K → content_owner d K = Some (user_id u) →
       contents (ContentOrderView (request_of u POST) request_json d).1 !! id
       = Some {| content_module := content_module K;
                 content_item := content_item K;
                 content_order := order |}).
Proof.
  intros Hlast. cbv zeta. intros Haccepted.
  assert ((list_to_map (reverse (before ++ (id, order) :: after)%list) : gmap pk Z) !! id
          = Some order) as Hlookup.
  { rewrite reverse_app, reverse_cons, <- (assoc_L (++)). cbn [app].
    rewrite list_to_map_app. apply lookup_union_Some_raw. right. split.
    - apply not_elem_of_list_to_map_1. by rewrite fmap_reverse, elem_of_reverse.
    - cbn. apply lookup_insert_eq. }
  split.
  - intros M HM Ho. rewrite ModuleOrderView_run by done.
    cbn [fst set_modules modules].
    rewrite update_rows_lookup_last by done. rewrite HM. cbn.
    rewrite Hlookup. by rewrite decide_True.
  - intros K HK Ho. rewrite ContentOrderView_run by done.
    cbn [fst set_contents contents].
    rewrite update_rows_lookup_last by done. rewrite HK. cbn.
    rewrite Hlookup. by rewrite decide_True.
Qed.

(** X16: sending the same ordering request a second time changes nothing
    more: the store after two runs is the store after one, for any body. *)
Theorem order_views_idempotent u (request_json : list (pk * Z)) d :
  ModuleOrderView (request_of u POST) request_json
    (ModuleOrderView (request_of u POST) request_json d).1
  = ModuleOrderView (request_of u POST) request_json d
  ∧ ContentOrderView (request_of u POST) request_json
      (ContentOrderView (request_of u POST) request_json d).1
    = ContentOrderView (request_of u POST) request_json d.
Proof.
  split.
  - rewrite (ModuleOrderView_run_until u request_json d). cbn [fst].
    rewrite ModuleOrderView_run_until.
    assert (update_rows_until
              (λ M, module_owner
                      (set_modules
                         (λ _, (update_rows_until
                                  (λ M, module_owner d M = Some (user_id u))
                                  set_module_order (modules d) request_json).1) d)
                      M = Some (user_id u))
              set_module_order
              (modules
                 (set_modules
                    (λ _, (update_rows_until
                             (λ M, module_owner d M = Some (user_id u))
                             set_module_order (modules d) request_json).1) d))
              request_json
            = update_rows_until (λ M, module_owner d M = Some (user_id u))
                set_module_order (modules d) request_json) as ->.
    { by apply (update_rows_until_twice (λ M, module_owner d M = Some (user_id u))). }
    reflexivity.
  - rewrite (ContentOrderView_run_until u request_json d). cbn [fst].
    rewrite ContentOrderView_run_until.
    assert (update_rows_until
              (λ K, content_owner
                      (set_contents
                         (λ _, (update_rows_until
                                  (λ K, content_owner d K = Some (user_id u))
                                  set_content_order (contents d) request_json).1) d)
                      K = Some (user_id u))
              set_content_order
              (contents
                 (set_contents
                    (λ _, (update_rows_until
                             (λ K, content_owner d K = Some (user_id u))
                             set_content_order (contents d) request_json).1) d))
              request_json
            = update_rows_until (λ K, content_owner d K = Some (user_id u))
                set_content_order (contents d) request_json) as ->.
    { by apply (update_rows_until_twice (λ K, content_owner d K = Some (user_id u))). }
    reflexivity.
Qed.

(** X17: for a body with distinct ids and orders that the order column
    takes, the sequence of its pairs does not matter: two bodies with the
    same pairs in another sequence lead to the same store and the same
    answer. *)
Theorem order_views_ignore_pair_sequence u (request_json request_json' : list (pk * Z)) d :
  NoDup request_json.*1 →
  Forall (λ p, order_accepted p.2) request_json →
  request_json ≡ₚ request_json' →
  ModuleOrderView (request_of u POST) request_json d
  = ModuleOrderView (request_of u POST) request_json' d
  ∧ ContentOrderView (request_of u POST) request_json d
    = ContentOrderView (request_of u POST) request_json' d.
Proof.
  intros Hnodup Haccepted Hperm.
  assert (Forall (λ p, order_accepted p.2) request_json') as Haccepted'
    by (by rewrite <- Hperm).
  split.
  - rewrite !ModuleOrderView_run by done. f_equal. unfold set_modules. f_equal.
    by apply update_rows_permutation.
  - rewrite !ContentOrderView_run by done. f_equal. unfold set_contents. f_equal.
    by apply update_rows_permutation.
Qed.

(** X21: an order that is refused ends the request where it stands.  When
    the pairs before it carry orders the column takes and its own order is
    one the storage layer does not take, or one the column's constraint
    refuses while the pair names a row of the actor, the store is left as
    the pairs before it made it, the pairs after it are not looked at, and
    the answer is the uncaught exception instead of the payload. *)
Theorem order_views_stop_at_refused_order u (before after : list (pk * Z))
    (id : pk) (order : Z) (exception : string) d :
  Forall (λ p, order_accepted p.2) before →
  let request_json := (before ++ (id, order) :: after)%list in
  (order_write_error order = Some exception →
     ModuleOrderView (request_of u POST) request_json d
     = ((ModuleOrderView (request_of u POST) before d).1, ServerError exception)
     ∧ ContentOrderView (request_of u POST) request_json d
       = ((ContentOrderView (request_of u POST) before d).1, ServerError exception))
  ∧ (order_write_error order = None →
     order_constraint_error order = Some exception →
     (∀ M, modules d !! id = Some M → module_owner d M = Some (user_id u) →
        ModuleOrderView (request_of u POST) request_json d
        = ((ModuleOrderView (request_of u POST) before d).1, ServerError exception))
     ∧ (∀ K, contents d !! id = Some K → content_owner d K = Some (user_id u) →
          ContentOrderView (request_of u POST) request_json d
          = ((ContentOrderView (request_of u POST) before d).1,
             ServerError exception))).
Proof.
  intros Haccepted. cbv zeta. split.
  - intros Hwrite. split.
    + apply ModuleOrderView_refused; [done|]. unfold order_error. by rewrite Hwrite.
    + apply ContentOrderView_refused; [done|]. unfold order_error. by rewrite Hwrite.
  - intros Hwrite Hconstraint. split.
    + intros M HM Ho. apply ModuleOrderView_refused; [done|].
      unfold order_error. rewrite Hwrite.
      assert (matched (λ M, module_owner d M = Some (user_id u)) (modules d)
                (id, order) = true) as ->; [|done].
      apply matched_lookup. by exists M.
    + intros K HK Ho. apply ContentOrderView_refused; [done|].
      unfold order_error. rewrite Hwrite.
      assert (matched (λ K, content_owner d K = Some (user_id u)) (contents d)
                (id, order) = true) as ->; [|done].
      apply matched_lookup. by exists K.
Qed.

(** ** Catalog and detail pages for any visitor *)

Lemma get_object_or_404_cases {A} (qs : gmap pk A) d :
  (∃ i x, qs !! i = Some x ∧ get_object_or_404 qs d = (d, Return (i, x)))
  ∨ get_object_or_404 qs d = (d, Raise Http404)
  ∨ get_object_or_404 qs d = (d, Raise (ServerError "MultipleObjectsReturned")).
Proof.
  unfold get_object_or_404.
  destruct (map_to_list qs) as [|[i x] [|y l]] eqn:Hlist.
  - right. by left.
  - left. exists i, x. split; [|done].
    apply elem_of_map_to_list. rewrite Hlist. left.
  - right. by right.
Qed.

(** X18: whatever page the catalog answers with shows the store and nothing
    else.  The Subject list is always the full list with its counts; the
    Courses shown are rows of the full annotated Course list; without a
    chosen Subject they are all of them, and with one they are exactly the
    Courses of that Subject, which carries the slug asked for. *)
Theorem catalog_page_shows_the_store (req : request) (subject : option string) d
    (template : string) (subject_list : gmap pk (Subject * nat))
    (chosen : option pk) (shown : gmap pk (Course * nat)) :
  (CourseListView req subject d).2
  = TemplateResponse template (CatalogContext subject_list chosen shown) →
  subject_list = annotate_total_courses d
  ∧ shown ⊆ annotate_total_modules d
  ∧ (chosen = None → shown = annotate_total_modules d)
  ∧ (∀ s, chosen = Some s →
       (∃ S, subjects d !! s = Some S ∧ subject = Some (subject_slug S))
       ∧ ∀ c row, shown !! c = Some row
                  ↔ annotate_total_modules d !! c = Some row
                    ∧ course_subject row.1 = s).
Proof.
  unfold CourseListView. destruct (method req); [|done].
  unfold CourseListView_get. run.
  destruct subject as [slug|].
  - destruct (decide (slug = "")) as [->|Hslug]; run.
    + intros [= <- <- <- <-]. split_and!; done.
    + destruct (get_object_or_404_cases
                  (filter (λ kv : pk * Subject, subject_slug kv.2 = slug) (subjects d)) d)
        as [(s & S & [HS HSslug]%map_lookup_filter_Some & ->)|[-> | ->]]; run;
        [|done..].
      intros [= <- <- <- <-]. cbn in HSslug. split_and!; try done.
      * apply map_filter_subseteq.
      * intros s' [= <-]. split; [exists S; by rewrite HSslug|].
        intros c row. by rewrite map_lookup_filter_Some.
  - intros [= <- <- <- <-]. split_and!; done.
Qed.

(** X19: the detail page is public.  Any visitor, signed in or not and owner
    or not, gets the page of any Course in the store, with the enrolment
    form preset to that Course; a key of no Course is a 404; the store is
    only read. *)
Theorem course_detail_is_public (visitor : option User) (c : pk) d :
  let req := {| user := visitor; method := GET |} in
  (∀ C, courses d !! c = Some C →
     CourseDetailView req c d
     = (d, DetailPage "courses/course/detail.html"
             {| detail_object := (c, C); enroll_form_initial_course := c |}))
  ∧ (courses d !! c = None → CourseDetailView req c d = (d, DetailError Http404)).
Proof.
  cbv zeta. unfold CourseDetailView. cbn [method]. rewrite bind_run. cbn [query].
  rewrite (get_object_or_404_at _ c).
  2: { intros j x [_ ?]%map_lookup_filter_Some. done. }
  split.
  - intros C HC. by rewrite (map_lookup_filter_Some_2 _ _ c C).
  - intros HC. rewrite map_lookup_filter_None_2; [done|]. by left.
Qed.

(** ** Referential integrity of Content records *)

Lemma keeps_references_refl d : keeps_references d d.
Proof. split; [done|]. intros j K HK. by exists K. Qed.

Lemma keeps_references_trans d1 d2 d3 :
  keeps_references d1 d2 → keeps_references d2 d3 → keeps_references d1 d3.
Proof.
  intros [Hitems12 H12] [Hitems23 H23]. split; [congruence|].
  intros j K3 HK3. destruct (H23 j K3 HK3) as (K2 & HK2 & Heq23).
  destruct (H12 j K2 HK2) as (K1 & HK1 & Heq12).
  exists K1. split; [done|congruence].
Qed.

Lemma keeps_references_sub d d' :
  items d' = items d → contents d' ⊆ contents d → keeps_references d d'.
Proof.
  intros Hitems Hsub. split; [done|]. intros j K HK. exists K. split; [|done].
  by eapply lookup_weaken.
Qed.

Lemma frames_reads {A} (c : orm A) : reads c → frames c.
Proof. intros Hc d. rewrite Hc. apply keeps_references_refl. Qed.

Lemma frames_bind {A B} (c : orm A) (f : A → orm B) :
  frames c → (∀ a, frames (f a)) → frames (c ≫= f).
Proof.
  intros Hc Hf d. rewrite bind_run. specialize (Hc d).
  destruct (c d) as [d' [a|r]]; cbn in Hc; [|done].
  eapply keeps_references_trans; [done|apply Hf].
Qed.

Lemma frames_modify (f : db → db) :
  (∀ d, keeps_references d (f d)) → frames (modify f).
Proof. intros Hf d. apply Hf. Qed.

Lemma frames_dispatch (bases : list klass) (perm : option string) (req : request)
    (handler : orm response) :
  frames handler → frames (dispatch bases perm req handler).
Proof.
  intros Hhandler. induction bases as [|b bases IH]; [done|].
  destruct b; cbn [dispatch]; try done.
  - destruct perm as [p|]; [|apply frames_reads, reads_raise].
    destruct (has_permission req p);
      [done|apply frames_reads, reads_handle_no_permission].
  - destruct (is_authenticated req);
      [done|apply frames_reads, reads_handle_no_permission].
Qed.

Lemma frames_respond (c : orm response) d :
  frames c → keeps_references d (respond c d).1.
Proof.
  intros Hc. unfold respond. specialize (Hc d).
  by destruct (c d) as [d' [a|r]].
Qed.

Lemma frames_for_each {A} (xs : list A) (body : A → orm unit) :
  (∀ x, frames (body x)) → frames (for_each xs body).
Proof.
  intros Hbody. induction xs as [|x xs IH]; [apply frames_reads, reads_ret|].
  cbn [for_each]. apply frames_bind; [apply Hbody|]. by intros _.
Qed.

Ltac frames_leaf :=
  first [ apply frames_reads; reads_leaf
        | apply frames_modify; intros ?; by apply keeps_references_sub ].

Ltac frames_step :=
  first [ frames_leaf | apply frames_bind; [frames_leaf | intros ?] ].

Lemma frames_form_valid (cls : view_class) (req : request)
    (instance : option (pk * Course)) (form : CourseForm) :
  frames (form_valid cls req instance form).
Proof.
  unfold form_valid. apply frames_bind.
  - case_bool_decide; [|frames_leaf]. destruct (user req); frames_leaf.
  - intros [o|]; [|frames_leaf]. apply frames_bind.
    + destruct instance as [[i C]|]; frames_leaf.
    + intros id. repeat frames_step.
Qed.

Lemma keeps_references_delete_course (id : pk) d :
  keeps_references d (delete_course id d).
Proof. apply keeps_references_sub; [done|]. apply map_filter_subseteq. Qed.

Lemma keeps_references_formset_save (course : pk) (rows : list ModuleForm) d :
  keeps_references d (formset_save course rows d).
Proof.
  unfold formset_save.
  assert (∀ rows' d', keeps_references d' (foldl (save_existing_object course) d' rows'))
    as Hexisting.
  { induction rows' as [|row rows' IH]; intros d'; [apply keeps_references_refl|].
    cbn [foldl]. eapply keeps_references_trans; [|apply IH].
    unfold save_existing_object.
    destruct (row_id row) as [i|]; [|apply keeps_references_refl].
    destruct (modules d' !! i) as [M|]; [|apply keeps_references_refl].
    case_decide; [|apply keeps_references_refl].
    destruct (row_DELETE row); apply keeps_references_sub; try done.
    apply map_filter_subseteq. }
  assert (∀ rows' d', keeps_references d' (foldl (save_new_object course) d' rows'))
    as Hnew.
  { induction rows' as [|row rows' IH]; intros d'; [apply keeps_references_refl|].
    cbn [foldl]. eapply keeps_references_trans; [|apply IH].
    unfold save_new_object.
    destruct (row_id row); [apply keeps_references_refl|].
    destruct (row_DELETE row); [apply keeps_references_refl|].
    by apply keeps_references_sub. }
  eapply keeps_references_trans; [apply Hexisting|apply Hnew].
Qed.

Lemma keeps_references_reorder (P : Content → Prop) `{∀ K, Decision (P K)}
    (id : pk) (order : Z) d :
  keeps_references d
    (set_contents (queryset_update (set_content_order order)
                     (filter (λ kv, kv.1 = id ∧ P kv.2) (contents d))) d).
Proof.
  split; [done|]. intros j K'. cbn [set_contents contents].
  change (queryset_update (set_content_order order)
            (filter (λ kv, kv.1 = id ∧ P kv.2) (contents d)) (contents d))
    with (update_row P set_content_order (contents d) (id, order)).
  rewrite update_row_lookup. destruct (contents d !! j) as [K|]; [|done].
  cbn. intros [= <-]. exists K. split; [done|]. by case_decide.
Qed.

(** Every view but the two that write typed items stays within
    [keeps_references], whatever the request. *)
Lemma course_and_order_views_keep_references (req : request) d :
  keeps_references d (ManageCourseListView req d).1
  ∧ (∀ form, keeps_references d (CourseCreateView req form d).1)
  ∧ (∀ c form, keeps_references d (CourseUpdateView req c form d).1)
  ∧ (∀ c, keeps_references d (CourseDeleteView req c d).1)
  ∧ (∀ c data, keeps_references d (CourseModuleUpdateView req c data d).1)
  ∧ (∀ request_json, keeps_references d (ModuleOrderView req request_json d).1)
  ∧ (∀ request_json, keeps_references d (ContentOrderView req request_json d).1).
Proof.
  split_and!; intros.
  - apply frames_respond, frames_dispatch.
    destruct (method req); [|frames_leaf]. unfold ListView_get. repeat frames_step.
  - apply frames_respond, frames_dispatch.
    destruct (method req); [apply frames_reads, reads_ret|].
    unfold CreateView_post. frames_step.
    destruct a; [apply frames_form_valid|frames_leaf].
  - apply frames_respond, frames_dispatch.
    destruct (method req); [unfold UpdateView_get; repeat frames_step|].
    unfold UpdateView_post. do 2 frames_step.
    destruct a0; [apply frames_form_valid|frames_leaf].
  - apply frames_respond, frames_dispatch.
    destruct (method req); [unfold DeleteView_get; repeat frames_step|].
    unfold DeleteView_post. frames_step. apply frames_bind; [|intros ?; frames_leaf].
    apply frames_modify. intros d'. apply keeps_references_delete_course.
  - apply frames_respond. unfold CourseModuleUpdateView_dispatch.
    do 3 frames_step. destruct (method req); [apply frames_reads, reads_ret|].
    unfold CourseModuleUpdateView_post. frames_step.
    destruct a2; [|frames_leaf].
    apply frames_bind; [|intros ?; frames_leaf].
    apply frames_modify. intros d'. apply keeps_references_formset_save.
  - apply frames_respond. destruct (method req); [frames_leaf|].
    unfold ModuleOrderView_post. apply frames_bind; [|intros ?; frames_leaf].
    apply frames_for_each. intros [id order]. do 2 frames_step.
    unfold update_order. destruct (order_error order _); frames_leaf.
  - apply frames_respond. destruct (method req); [frames_leaf|].
    unfold ContentOrderView_post. apply frames_bind; [|intros ?; frames_leaf].
    apply frames_for_each. intros [id order] d'.
    rewrite bind_run. unfold owner_lookup.
    destruct (user req) as [u|]; [|apply keeps_references_refl].
    cbn [mret orm_ret]. rewrite bind_run. cbn [query]. unfold update_order.
    destruct (order_error order _); [apply keeps_references_refl|].
    exact (keeps_references_reorder (λ K, content_owner d' K = Some (user_id u))
             id order d').
Qed.

Lemma content_integrity_keeps d d' :
  content_integrity d → keeps_references d d' → content_integrity d'.
Proof.
  intros [Hexists Hinj] [Hitems Hsub]. split.
  - intros j K' HK'. destruct (Hsub j K' HK') as (K & HK & Heq).
    rewrite Hitems, Heq. by apply (Hexists j).
  - intros j j' K1' K2' H1 H2 Heq.
    destruct (Hsub j K1' H1) as (K1 & HK1 & Heq1).
    destruct (Hsub j' K2' H2) as (K2 & HK2 & Heq2).
    apply (Hinj j j' K1 K2); congruence.
Qed.

Lemma content_integrity_set_item (k : item_kind) (i : pk) (x : Item) d :
  content_integrity d → content_integrity (set_items k <[i := x]> d).
Proof.
  intros [Hexists Hinj]. split; [|done].
  intros j K HK. specialize (Hexists j K HK).
  destruct (decide ((content_item K).1 = k)) as [<-|Hk].
  - rewrite set_items_lookup. apply lookup_insert_is_Some'. by right.
  - by rewrite set_items_lookup_ne.
Qed.

Lemma content_integrity_create (k : item_kind) (i j module_id : pk) (x : Item)
    (order : Z) d :
  content_integrity d →
  items d k !! i = None →
  content_integrity
    (set_contents <[j := {| content_module := module_id; content_item := (k, i);
                            content_order := order |}]>
       (set_items k <[i := x]> d)).
Proof.
  intros Hd Hfree. pose proof Hd as [Hexists Hinj].
  destruct (content_integrity_set_item k i x d Hd) as [Hexists' _].
  assert (∀ j' K, contents d !! j' = Some K → content_item K ≠ (k, i)) as Hunused.
  { intros j' K HK Heq. destruct (Hexists j' K HK) as [y Hy].
    rewrite Heq in Hy. cbn in Hy. congruence. }
  split.
  - intros j' K. cbn [set_contents contents].
    destruct (decide (j' = j)) as [->|Hne].
    + rewrite lookup_insert_eq. intros [= <-]. cbn.
      rewrite decide_True by done. rewrite lookup_insert_eq. by eexists.
    + rewrite lookup_insert_ne by done. intros HK. by apply (Hexists' j').
  - intros j1 j2 K1 K2. cbn [set_contents contents].
    destruct (decide (j1 = j)) as [->|Hne1], (decide (j2 = j)) as [->|Hne2];
      [done|..].
    + rewrite lookup_insert_eq, lookup_insert_ne by done.
      intros [= <-] HK2 Heq. cbn in Heq. by destruct (Hunused j2 K2 HK2).
    + rewrite lookup_insert_eq, lookup_insert_ne by done.
      intros HK1 [= <-] Heq. cbn in Heq. by destruct (Hunused j1 K1 HK1).
    + rewrite !lookup_insert_ne by done. apply Hinj.
Qed.

Lemma content_integrity_delete (id : pk) (K : Content) d :
  content_integrity d →
  contents d !! id = Some K →
  content_integrity
    (set_contents (delete id)
       (set_items (content_item K).1 (delete (content_item K).2) d)).
Proof.
  intros [Hexists Hinj] HK. split.
  - intros j K'. unfold set_contents. cbn [contents items].
    intros [Hne HK']%lookup_delete_Some.
    assert (content_item K' ≠ content_item K) as Hother.
    { intros Heq. apply Hne. by apply (Hinj id j K K'). }
    destruct (decide ((content_item K').1 = (content_item K).1)) as [Hk|Hk].
    + rewrite Hk, set_items_lookup. rewrite lookup_delete_ne.
      * rewrite <- Hk. by apply (Hexists j).
      * intros Hi. apply Hother.
        destruct (content_item K'), (content_item K). cbn in *. congruence.
    + rewrite set_items_lookup_ne by done. by apply (Hexists j).
  - intros j1 j2 K1 K2. cbn [set_contents contents].
    intros [_ H1]%lookup_delete_Some [_ H2]%lookup_delete_Some. by apply Hinj.
Qed.

(** What a content form request can leave behind: the store as it was, one
    typed item written, or one new typed item together with one new
    Content record that refers to it. *)
Lemma ContentCreateUpdateView_writes (req : request) (module_id : pk)
    (model_name : string) (id : option pk) (data : ItemForm) d :
  let after := (ContentCreateUpdateView req module_id model_name id data d).1 in
  after = d
  ∨ (∃ k i x, after = set_items k <[i := x]> d)
  ∨ (∃ k x order,
       after
       = set_contents <[fresh (dom (contents d)) :=
                          {| content_module := module_id;
                             content_item := (k, fresh (dom (items d k)));
                             content_order := order |}]>
           (set_items k <[fresh (dom (items d k)) := x]> d)).
Proof.
  cbv zeta. unfold ContentCreateUpdateView, ContentCreateUpdateView_dispatch.
  destruct (user req) as [u|] eqn:Hu; run; unfold owner_lookup; rewrite Hu; run;
    [|by left].
  destruct (get_object_or_404_cases
              (filter (λ kv : pk * Module_,
                         kv.1 = module_id ∧ module_owner d kv.2 = Some (user_id u))
                 (modules d)) d)
    as [(i & M & [_ [Hi _]]%map_lookup_filter_Some & ->)|[-> | ->]]; run;
    [|by left..].
  cbn in Hi. subst i.
  destruct (get_model model_name) as [k|], id as [i|]; run.
  - destruct (get_object_or_404_cases
                (filter (λ kv : pk * Item, kv.1 = i ∧ item_owner kv.2 = user_id u)
                   (items d k)) d)
      as [(i' & old & _ & ->)|[-> | ->]]; run; [|by left..].
    destruct (method req); [by left|].
    unfold ContentCreateUpdateView_post, get_form. run.
    destruct (item_form_is_valid d k data); run; [|by left].
    right. left. by eexists _, _, _.
  - destruct (method req); [by left|].
    unfold ContentCreateUpdateView_post, get_form. run.
    destruct (item_form_is_valid d k data); run; [|by left].
    right. right. by eexists _, _, _.
  - by left.
  - destruct (method req); by left.
Qed.

(** What a content deletion request can leave behind: the store as it
    was, or the store without one Content record and the item it refers
    to. *)
Lemma ContentDeleteView_writes (req : request) (id : pk) d :
  let after := (ContentDeleteView req id d).1 in
  after = d
  ∨ ∃ K, contents d !! id = Some K
         ∧ after = set_contents (delete id)
                     (set_items (content_item K).1 (delete (content_item K).2) d).
Proof.
  cbv zeta. unfold ContentDeleteView. destruct (method req); [by left|].
  unfold ContentDeleteView_post.
  destruct (user req) as [u|] eqn:Hu; run; unfold owner_lookup; rewrite Hu; run;
    [|by left].
  destruct (get_object_or_404_cases
              (filter (λ kv : pk * Content,
                         kv.1 = id ∧ content_owner d kv.2 = Some (user_id u))
                 (contents d)) d)
    as [(i & K & [HK [Hi _]]%map_lookup_filter_Some & ->)|[-> | ->]]; run;
    [|by left..].
  cbn in Hi. subst i.
  destruct (items d (content_item K).1 !! (content_item K).2); run; [|by left].
  right. by exists K.
Qed.

(** X20: the views keep the Content table sound.  If every Content record
    refers to a typed item that is there and no two refer to the same one,
    this is still so after any request to any view, whoever sends it and
    whether it succeeds or raises. *)
Theorem views_keep_content_integrity (req : request) d :
  content_integrity d →
  content_integrity (ManageCourseListView req d).1
  ∧ (∀ form, content_integrity (CourseCreateView req form d).1)
  ∧ (∀ c form, content_integrity (CourseUpdateView req c form d).1)
  ∧ (∀ c, content_integrity (CourseDeleteView req c d).1)
  ∧ (∀ c data, content_integrity (CourseModuleUpdateView req c data d).1)
  ∧ (∀ module_id model_name id data,
       content_integrity
         (ContentCreateUpdateView req module_id model_name id data d).1)
  ∧ (∀ id, content_integrity (ContentDeleteView req id d).1)
  ∧ (∀ module_id, content_integrity (ModuleContentListView req module_id d).1)
  ∧ (∀ request_json, content_integrity (ModuleOrderView req request_json d).1)
  ∧ (∀ request_json, content_integrity (ContentOrderView req request_json d).1)
  ∧ (∀ subject, content_integrity (CourseListView req subject d).1)
  ∧ (∀ c, content_integrity (CourseDetailView req c d).1).
Proof.
  intros Hd.
  destruct (course_and_order_views_keep_references req d)
    as (Hlist & Hcreate & Hupdate & Hdelete & Hformset & Hmodules & Hcontents).
  split_and!; intros; try (by eapply content_integrity_keeps).
  - destruct (ContentCreateUpdateView_writes req module_id model_name id data d)
      as [->|[(k & i & x & ->)|(k & x & order & ->)]]; [done|..].
    + by apply content_integrity_set_item.
    + apply content_integrity_create; [done|]. apply not_elem_of_dom, is_fresh.
  - destruct (ContentDeleteView_writes req id d) as [->|(K & HK & ->)]; [done|].
    by apply content_integrity_delete.
  - unfold ModuleContentListView.
    rewrite reads_respond; [done|].
    destruct (method req); [|apply reads_ret].
    unfold ModuleContentListView_get. repeat reads_step.
  - by rewrite CourseListView_unchanged.
  - by rewrite CourseDetailView_unchanged.
Qed.

End Properties.

(** * The views on the sample store *)

Section OnTheStore.
Import Fixture.
Local Open Scope positive_scope.

(** C1 (the code departs from it): Alice owns course 1 and holds neither
    the change nor the delete permission.  Her update is saved and her
    delete removes the Course, both answered with the redirect to the
    course list; only the create view, whose bases include the permission
    mixin, answers her with [PermissionDenied]. *)
Theorem course_update_delete_without_permission :
  has_permission (request_of alice POST) "courses.change_course" = false
  ∧ has_permission (request_of alice POST) "courses.delete_course" = false
  ∧ (CourseUpdateView (request_of alice POST) 1 retitled store).2
    = HttpResponseRedirect manage_course_list
  ∧ course_title <$> courses (CourseUpdateView (request_of alice POST) 1 retitled store).1 !! 1
    = Some "Django Advanced"
  ∧ (CourseDeleteView (request_of alice POST) 1 store).2
    = HttpResponseRedirect manage_course_list
  ∧ courses (CourseDeleteView (request_of alice POST) 1 store).1 !! 1 = None
  ∧ CourseCreateView (request_of alice POST) retitled store = (store, PermissionDenied).
Proof. vm_compute. done. Qed.

(** C4 (the code departs from it): with the tag spreadsheet, which is not
    on the allow-list, the owner of module 1 gets an uncaught exception,
    not a validation error: the [AttributeError] of building a form for no
    model on GET and on POST, and the [ValueError] of looking an item up
    in no model on the update path; the four tags on the list resolve to
    their models. *)
Theorem unknown_model_name_is_a_server_error :
  get_model "spreadsheet" = None
  ∧ ContentCreateUpdateView (request_of alice GET) 1 "spreadsheet" None text_form store
    = (store, ServerError "AttributeError")
  ∧ ContentCreateUpdateView (request_of alice POST) 1 "spreadsheet" None text_form store
    = (store, ServerError "AttributeError")
  ∧ ContentCreateUpdateView (request_of alice POST) 1 "spreadsheet" (Some 1) text_form store
    = (store, ServerError "ValueError")
  ∧ get_model "text" = Some Text ∧ get_model "video" = Some Video
  ∧ get_model "image" = Some Image ∧ get_model "file" = Some File.
Proof. vm_compute. done. Qed.

(** C5 (the code departs from it): Alice deletes content 1 of her module
    1.  The text it refers to and the Content record are both removed, and
    the answer is the uncaught [NameError] of the redirect, not the
    redirect to the content list of module 1. *)
Theorem content_delete_ends_in_name_error :
  content_owner store (new_content 1 Text 1 0) = Some (user_id alice)
  ∧ (ContentDeleteView (request_of alice POST) 1 store).2 = ServerError "NameError"
  ∧ (ContentDeleteView (request_of alice POST) 1 store).2
    ≠ HttpResponseRedirect (module_content_list 1)
  ∧ contents (ContentDeleteView (request_of alice POST) 1 store).1 !! 1 = None
  ∧ items (ContentDeleteView (request_of alice POST) 1 store).1 Text !! 1 = None.
Proof. vm_compute. done. Qed.

(** Bob's course 2 asked for by Alice. *)
Lemma foreign_course_not_found_witness :
  courses store !! 2 = Some algebra
  ∧ course_owner algebra ≠ user_id alice
  ∧ CourseUpdateView (request_of alice POST) 2 retitled store = (store, Http404)
  ∧ CourseDeleteView (request_of alice POST) 2 store = (store, Http404)
  ∧ ContentDeleteView (request_of alice POST) 3 store = (store, Http404).
Proof.
  assert (courses store !! 2 = Some algebra) as HC by (vm_compute; reflexivity).
  assert (course_owner algebra ≠ user_id alice) as Ho by (vm_compute; discriminate).
  destruct (foreign_course_not_found (H := layer) alice 2 algebra store HC Ho)
    as (_ & Hupdate & Hdelete & _ & Hmodules).
  destruct (Hmodules 3 (new_module 2 "Groups" 0)) as (_ & _ & Hcontent);
    [vm_compute; reflexivity | reflexivity |].
  split_and!; [exact HC | exact Ho | apply Hupdate | apply Hdelete |].
  apply (Hcontent 3 (new_content 3 Video 1 0)); [vm_compute; reflexivity | reflexivity].
Defined.



(** Alice's formset for course 1: once with an edit, a deletion and an
    extra row, once with an edit that blanks the title. *)
Lemma module_formset_all_or_nothing_witness :
  courses store !! 1 = Some django_basics
  ∧ course_owner django_basics = user_id alice
  ∧ CourseModuleUpdateView (request_of alice POST) 1
      [edit_row 1 "Introduction"; delete_row 2; extra_row "Templates"] store
    = (formset_save 1 [edit_row 1 "Introduction"; delete_row 2; extra_row "Templates"]
         store,
       HttpResponseRedirect manage_course_list)
  ∧ map_to_list
      (modules (formset_save 1 [edit_row 1 "Introduction"; delete_row 2;
                                extra_row "Templates"] store))
    = [(3, new_module 2 "Groups" 0); (4, new_module 1 "Templates" 1);
       (1, new_module 1 "Introduction" 0)]
  ∧ CourseModuleUpdateView (request_of alice POST) 1
      [edit_row 1 "Introduction"; edit_row 2 ""] store
    = (store, TemplateResponse "courses/manage/module/formset.html"
                (FormsetContext 1 true)).
Proof.
  assert (courses store !! 1 = Some django_basics) as HC by (vm_compute; reflexivity).
  assert (course_owner django_basics = user_id alice) as Ho by reflexivity.
  split_and!; [exact HC | exact Ho | | vm_compute; reflexivity |].
  - apply (module_formset_all_or_nothing (H := layer) alice 1 django_basics _ store HC Ho).
    intros row Hrow. repeat (apply elem_of_cons in Hrow as [->|Hrow]; [reflexivity|]).
    by apply elem_of_nil in Hrow.
  - apply (module_formset_all_or_nothing (H := layer) alice 1 django_basics _ store HC Ho).
    exists (edit_row 2 ""). split; [right; left | reflexivity].
Defined.

(** Alice adds a text to her module 1. *)
Lemma content_post_stamps_owner_and_wraps_new_item_witness :
  modules store !! 1 = Some (new_module 1 "Intro" 0)
  ∧ module_owner store (new_module 1 "Intro" 0) = Some (user_id alice)
  ∧ get_model "text" = Some Text
  ∧ item_form_is_valid store Text text_form = true
  ∧ (ContentCreateUpdateView (request_of alice POST) 1 "text" None text_form store).2
    = HttpResponseRedirect (module_content_list 1)
  ∧ item_owner <$>
      items (ContentCreateUpdateView (request_of alice POST) 1 "text" None text_form
               store).1 Text !! fresh (dom (items store Text))
    = Some (user_id alice)
  ∧ size (contents (ContentCreateUpdateView (request_of alice POST) 1 "text" None
                      text_form store).1)
    = S (size (contents store)).
Proof.
  assert (modules store !! 1 = Some (new_module 1 "Intro" 0)) as HM
    by (vm_compute; reflexivity).
  assert (module_owner store (new_module 1 "Intro" 0) = Some (user_id alice)) as Ho
    by (vm_compute; reflexivity).
  assert (get_model "text" = Some Text) as Hk by (vm_compute; reflexivity).
  assert (item_form_is_valid store Text text_form = true) as Hvalid by reflexivity.
  destruct (content_post_stamps_owner_and_wraps_new_item (H := layer) alice 1
              (new_module 1 "Intro" 0) "text" Text None text_form store HM Ho Hk)
    as (Hresponse & _ & Howner & _ & Hcreate & _); [discriminate | exact Hvalid |].
  destruct (Hcreate eq_refl) as (_ & j & order & _ & _ & Hsize).
  split_and!; [exact HM | exact Ho | exact Hk | exact Hvalid | exact Hresponse
              | exact Howner | exact Hsize].
Defined.

(** The catalog for the slug python, and for a slug of no Subject. *)
Lemma catalog_counts_and_subject_filter_witness :
  annotate_total_courses store !! 2 = Some (maths, 1%nat)
  ∧ annotate_total_modules store !! 1 = Some (django_basics, 2%nat)
  ∧ (∃ shown,
       CourseListView {| user := None; method := GET |} (Some "python") store
       = (store, TemplateResponse "courses/course/list.html"
                   (CatalogContext (annotate_total_courses store) (Some 1) shown))
       ∧ shown !! 1 = Some (django_basics, 2%nat)
       ∧ shown !! 2 = None)
  ∧ CourseListView {| user := None; method := GET |} (Some "cooking") store
    = (store, Http404).
Proof.
  destruct (catalog_counts_and_subject_filter None store)
    as (Hsubjects & Hcourses & _ & Hslug & Hmissing).
  assert (∀ s S, subjects store !! s = Some S → s = 1 ∨ s = 2) as Hkeys.
  { intros s S HS. apply elem_of_dom_2 in HS. revert HS.
    change (dom (subjects store)) with (dom ({[ 1 := python; 2 := maths ]} : gmap pk Subject)).
    rewrite dom_insert_L, dom_singleton_L.
    intros [->%elem_of_singleton| ->%elem_of_singleton]%elem_of_union; auto. }
  split_and!.
  - rewrite Hsubjects. vm_compute. reflexivity.
  - rewrite Hcourses. vm_compute. reflexivity.
  - destruct (Hslug "python" 1 python) as (shown & Hresponse & Hshown);
      [discriminate | vm_compute; reflexivity | reflexivity | |].
    { intros s' S' HS' Hslug'. destruct (Hkeys _ _ HS') as [->| ->]; [done|].
      exfalso. revert HS' Hslug'. vm_compute. intros [= <-]. discriminate. }
    exists shown. split_and!; [exact Hresponse | |].
    + apply Hshown. rewrite Hcourses. split; vm_compute; reflexivity.
    + destruct (shown !! 2) as [row|] eqn:Hrow; [|done]. exfalso.
      apply Hshown in Hrow as [Hrow Hsubject]. rewrite Hcourses in Hrow.
      revert Hrow Hsubject. vm_compute. intros [= <-]. discriminate.
  - apply Hmissing; [discriminate|].
    intros s S HS. destruct (Hkeys _ _ HS) as [->| ->];
      revert HS; vm_compute; intros [= <-]; discriminate.
Defined.


(** The same for her text 3, which no Content record refers to. *)
Example unattached_item_is_editable :
  (∀ j K, contents store !! j = Some K → content_item K ≠ (Text, 3))
  ∧ (ContentCreateUpdateView (request_of alice POST) 1 "text" (Some 3) text_form store).2
    = HttpResponseRedirect (module_content_list 1)
  ∧ items (ContentCreateUpdateView (request_of alice POST) 1 "text" (Some 3) text_form
             store).1 Text !! 3
    = Some (saved_item (user_id alice) text_form).
Proof.
  split; [|vm_compute; done].
  apply (bool_decide_unpack
           (map_Forall (λ _ K, content_item K ≠ (Text, 3)) (contents store))).
  vm_compute. exact I.
Qed.

(** ** The further properties on the sample store *)

Lemma owner_list_is_exactly_own_courses_witness :
  ∃ qs, (ManageCourseListView (request_of alice GET) store).2
        = TemplateResponse "courses/manage/course/list.html" (CourseListContext qs)
        ∧ qs !! 1 = Some django_basics
        ∧ qs !! 2 = None.
Proof.
  destruct (owner_list_is_exactly_own_courses alice store) as (qs & Hresponse & Hlist).
  exists qs. split_and!.
  - by rewrite Hresponse.
  - apply Hlist. split; vm_compute; reflexivity.
  - destruct (qs !! 2) as [C|] eqn:HC; [|done]. exfalso.
    apply Hlist in HC as [HC Ho]. revert HC Ho. vm_compute.
    intros [= <-]. discriminate.
Defined.

Lemma CourseCreateView_without_grant_witness :
  has_perm alice "courses.add_course" = false
  ∧ CourseCreateView (request_of alice POST) retitled store = (store, PermissionDenied).
Proof.
  assert (has_perm alice "courses.add_course" = false) as Hperm
    by (vm_compute; reflexivity).
  split; [exact Hperm|].
  exact (CourseCreateView_without_grant (H := layer) alice POST retitled store Hperm).
Defined.

Lemma course_create_stamps_owner_witness :
  has_perm alice_with_grant "courses.add_course" = true
  ∧ course_form_is_valid store None retitled = true
  ∧ (CourseCreateView (request_of alice_with_grant POST) retitled store).2
    = HttpResponseRedirect manage_course_list
  ∧ courses store !! fresh (dom (courses store)) = None
  ∧ course_owner <$>
      courses (CourseCreateView (request_of alice_with_grant POST) retitled store).1
        !! fresh (dom (courses store))
    = Some (user_id alice_with_grant).
Proof.
  assert (has_perm alice_with_grant "courses.add_course" = true) as Hperm
    by (vm_compute; reflexivity).
  assert (course_form_is_valid store None retitled = true) as Hvalid
    by (vm_compute; reflexivity).
  destruct (course_create_stamps_owner (H := layer) alice_with_grant retitled store
              Hperm Hvalid) as (Hresponse & Hfree & Hnew & _).
  split_and!; [exact Hperm | exact Hvalid | exact Hresponse | exact Hfree |].
  by rewrite Hnew.
Defined.

Lemma created_course_is_listed_for_its_owner_only_witness :
  has_perm alice_with_grant "courses.add_course" = true
  ∧ course_form_is_valid store None retitled = true
  ∧ user_id bob ≠ user_id alice_with_grant
  ∧ ∃ qs, (ManageCourseListView (request_of bob GET)
             (CourseCreateView (request_of alice_with_grant POST) retitled store).1).2
          = TemplateResponse "courses/manage/course/list.html" (CourseListContext qs)
          ∧ qs !! fresh (dom (courses store)) = None.
Proof.
  assert (has_perm alice_with_grant "courses.add_course" = true) as Hperm
    by (vm_compute; reflexivity).
  assert (course_form_is_valid store None retitled = true) as Hvalid
    by (vm_compute; reflexivity).
  assert (user_id bob ≠ user_id alice_with_grant) as Hother by discriminate.
  split_and!; [exact Hperm | exact Hvalid | exact Hother |].
  exact (proj2 (created_course_is_listed_for_its_owner_only (H := layer)
                  alice_with_grant bob retitled store Hperm Hvalid Hother)).
Defined.

Lemma invalid_course_form_saves_nothing_witness :
  CourseCreateView (request_of alice_with_grant POST) untitled store
  = (store, TemplateResponse "courses/manage/course/form.html"
              (CourseFormContext None true))
  ∧ CourseUpdateView (request_of alice POST) 1 untitled store
    = (store, TemplateResponse "courses/manage/course/form.html"
                (CourseFormContext (Some 1) true)).
Proof.
  split.
  - apply (invalid_course_form_saves_nothing (H := layer) alice_with_grant untitled store);
      vm_compute; reflexivity.
  - apply (proj2 (invalid_course_form_saves_nothing (H := layer) alice untitled store)
             1 django_basics); vm_compute; reflexivity.
Defined.

Lemma course_update_touches_one_row_witness :
  courses store !! 1 = Some django_basics
  ∧ course_owner django_basics = user_id alice
  ∧ course_form_is_valid store (Some 1) retitled = true
  ∧ courses (CourseUpdateView (request_of alice POST) 1 retitled store).1 !! 2
    = Some algebra
  ∧ dom (courses (CourseUpdateView (request_of alice POST) 1 retitled store).1)
    = dom (courses store).
Proof.
  assert (courses store !! 1 = Some django_basics) as HC by (vm_compute; reflexivity).
  assert (course_owner django_basics = user_id alice) as Ho by reflexivity.
  assert (course_form_is_valid store (Some 1) retitled = true) as Hvalid
    by (vm_compute; reflexivity).
  destruct (course_update_touches_one_row (H := layer) alice 1 django_basics retitled
              store HC Ho Hvalid) as (_ & _ & Hothers & Hdom & _).
  split_and!; [exact HC | exact Ho | exact Hvalid | | exact Hdom].
  rewrite Hothers by discriminate. vm_compute. reflexivity.
Defined.

Lemma get_model_round_trip_witness :
  get_model "video" = Some Video ∧ "video" = model_name_of Video.
Proof.
  assert (get_model "video" = Some Video) as Hk by (vm_compute; reflexivity).
  split; [exact Hk|].
  exact (proj2 (get_model_round_trip Video "video") Hk).
Defined.

Lemma invalid_content_form_saves_nothing_witness :
  modules store !! 1 = Some (new_module 1 "Intro" 0)
  ∧ module_owner store (new_module 1 "Intro" 0) = Some (user_id alice)
  ∧ get_model "text" = Some Text
  ∧ item_form_is_valid store Text blank_form = false
  ∧ ContentCreateUpdateView (request_of alice POST) 1 "text" None blank_form store
    = (store, TemplateResponse "courses/manage/content/form.html"
                (ContentFormContext None true)).
Proof.
  assert (modules store !! 1 = Some (new_module 1 "Intro" 0)) as HM
    by (vm_compute; reflexivity).
  assert (module_owner store (new_module 1 "Intro" 0) = Some (user_id alice)) as Ho
    by (vm_compute; reflexivity).
  assert (get_model "text" = Some Text) as Hk by (vm_compute; reflexivity).
  assert (item_form_is_valid store Text blank_form = false) as Hvalid by reflexivity.
  split_and!; [exact HM | exact Ho | exact Hk | exact Hvalid |].
  apply (invalid_content_form_saves_nothing (H := layer) alice 1
           (new_module 1 "Intro" 0) "text" Text None blank_form store HM Ho Hk);
    [discriminate | exact Hvalid].
Defined.

(** Alice asks for Bob's video 1 through her own module 1. *)
Lemma foreign_item_not_found_witness :
  modules store !! 1 = Some (new_module 1 "Intro" 0)
  ∧ module_owner store (new_module 1 "Intro" 0) = Some (user_id alice)
  ∧ get_model "video" = Some Video
  ∧ items store Video !! 1 = Some (new_item 2 "Lecture")
  ∧ ContentCreateUpdateView (request_of alice POST) 1 "video" (Some 1) text_form store
    = (store, Http404).
Proof.
  assert (modules store !! 1 = Some (new_module 1 "Intro" 0)) as HM
    by (vm_compute; reflexivity).
  assert (module_owner store (new_module 1 "Intro" 0) = Some (user_id alice)) as Ho
    by (vm_compute; reflexivity).
  assert (get_model "video" = Some Video) as Hk by (vm_compute; reflexivity).
  assert (items store Video !! 1 = Some (new_item 2 "Lecture")) as Hi
    by (vm_compute; reflexivity).
  split_and!; [exact HM | exact Ho | exact Hk | exact Hi |].
  apply (foreign_item_not_found (H := layer) alice POST 1 (new_module 1 "Intro" 0)
           "video" Video 1 text_form store HM Ho Hk).
  intros old. vm_compute. intros [= <-]. discriminate.
Defined.

(** Alice deletes content 2, which attaches her text 2 to module 2. *)
Lemma content_delete_removes_two_rows_witness :
  contents store !! 2 = Some (new_content 2 Text 2 0)
  ∧ content_owner store (new_content 2 Text 2 0) = Some (user_id alice)
  ∧ items store Text !! 2 = Some (new_item 1 "Routing")
  ∧ contents (ContentDeleteView (request_of alice POST) 2 store).1
    = delete 2 (contents store)
  ∧ items (ContentDeleteView (request_of alice POST) 2 store).1 Text !! 1
    = Some (new_item 1 "Welcome").
Proof.
  assert (contents store !! 2 = Some (new_content 2 Text 2 0)) as HK
    by (vm_compute; reflexivity).
  assert (content_owner store (new_content 2 Text 2 0) = Some (user_id alice)) as Ho
    by (vm_compute; reflexivity).
  assert (items store Text !! 2 = Some (new_item 1 "Routing")) as Hitem
    by (vm_compute; reflexivity).
  destruct (content_delete_removes_two_rows alice 2 (new_content 2 Text 2 0)
              (new_item 1 "Routing") store HK Ho Hitem)
    as (_ & Hcontents & _ & Hitems & _).
  split_and!; [exact HK | exact Ho | exact Hitem | exact Hcontents |].
  rewrite Hitems by discriminate. vm_compute. reflexivity.
Defined.

(** Content 9 does not exist; content 4 of the other store refers to an
    image that is not there. *)
Lemma content_delete_needs_both_rows_witness :
  contents store !! 9 = None
  ∧ ContentDeleteView (request_of alice POST) 9 store = (store, Http404)
  ∧ contents dangling_store !! 4 = Some (new_content 1 Image 7 1)
  ∧ items dangling_store Image !! 7 = None
  ∧ ContentDeleteView (request_of alice POST) 4 dangling_store
    = (dangling_store, ServerError "AttributeError").
Proof.
  assert (contents store !! 9 = None) as Hnone by (vm_compute; reflexivity).
  assert (contents dangling_store !! 4 = Some (new_content 1 Image 7 1)) as HK
    by (vm_compute; reflexivity).
  assert (items dangling_store Image !! 7 = None) as Hitem by (vm_compute; reflexivity).
  split_and!; [exact Hnone | | exact HK | exact Hitem |].
  - exact (proj1 (content_delete_needs_both_rows alice 9 store) Hnone).
  - apply (proj2 (content_delete_needs_both_rows alice 4 dangling_store)
             (new_content 1 Image 7 1) HK); [vm_compute; reflexivity | exact Hitem].
Defined.

(** Module 1 and content 1 are named twice in one body: 5 first, 9 last. *)
Lemma order_last_pair_wins_witness :
  (1 ∉ [(2, 3%Z)].*1)
  ∧ Forall (λ p, order_accepted p.2) [(1, 5%Z); (1, 9%Z); (2, 3%Z)]
  ∧ modules (ModuleOrderView (request_of alice POST) [(1, 5%Z); (1, 9%Z); (2, 3%Z)]
               store).1 !! 1
    = Some (new_module 1 "Intro" 9)
  ∧ contents (ContentOrderView (request_of alice POST) [(1, 5%Z); (1, 9%Z); (2, 3%Z)]
                store).1 !! 1
    = Some (new_content 1 Text 1 9).
Proof.
  assert (1 ∉ ([(2, 3%Z)].*1 : list pk)) as Hlast.
  { cbn. intros Hin%list_elem_of_singleton. discriminate. }
  assert (Forall (λ p, order_accepted p.2) [(1, 5%Z); (1, 9%Z); (2, 3%Z)])
    as Haccepted.
  { repeat (constructor; [split; vm_compute; reflexivity|]). constructor. }
  destruct (order_last_pair_wins (H := layer) alice [(1, 5%Z)] [(2, 3%Z)] 1 9%Z store
              Hlast Haccepted) as [Hmodule Hcontent].
  split_and!; [exact Hlast | exact Haccepted | |].
  - apply (Hmodule (new_module 1 "Intro" 0)); vm_compute; reflexivity.
  - apply (Hcontent (new_content 1 Text 1 0)); vm_compute; reflexivity.
Defined.

Lemma order_views_ignore_pair_sequence_witness :
  NoDup [(1, 5%Z); (2, 7%Z)].*1
  ∧ Forall (λ p, order_accepted p.2) [(1, 5%Z); (2, 7%Z)]
  ∧ [(1, 5%Z); (2, 7%Z)] ≡ₚ [(2, 7%Z); (1, 5%Z)]
  ∧ ModuleOrderView (request_of alice POST) [(1, 5%Z); (2, 7%Z)] store
    = ModuleOrderView (request_of alice POST) [(2, 7%Z); (1, 5%Z)] store.
Proof.
  assert (NoDup [(1, 5%Z); (2, 7%Z)].*1) as Hnodup.
  { cbn. apply NoDup_cons. split; [|apply NoDup_singleton].
    intros Hin%list_elem_of_singleton. discriminate. }
  assert (Forall (λ p, order_accepted p.2) [(1, 5%Z); (2, 7%Z)]) as Haccepted.
  { repeat (constructor; [split; vm_compute; reflexivity|]). constructor. }
  assert ([(1, 5%Z); (2, 7%Z)] ≡ₚ [(2, 7%Z); (1, 5%Z)]) as Hperm
    by apply Permutation_swap.
  split_and!; [exact Hnodup | exact Haccepted | exact Hperm |].
  exact (proj1 (order_views_ignore_pair_sequence (H := layer) alice _ _ store
                  Hnodup Haccepted Hperm)).
Defined.

(** Module 2 gets the order 7, then module 1 is sent 2^63, which the
    column does not hold, and in another body -1, which its constraint
    refuses: module 2 is written, the answer is the exception, and the
    pair for module 3 that follows is not looked at. *)
Lemma order_views_stop_at_refused_order_witness :
  Forall (λ p, order_accepted p.2) [(2, 7%Z)]
  ∧ order_write_error (2 ^ 63)%Z = Some "OverflowError"
  ∧ ModuleOrderView (request_of alice POST) [(2, 7%Z); (1, (2 ^ 63)%Z); (3, 4%Z)] store
    = ((ModuleOrderView (request_of alice POST) [(2, 7%Z)] store).1,
       ServerError "OverflowError")
  ∧ order_write_error (-1)%Z = None
  ∧ order_constraint_error (-1)%Z = Some "IntegrityError"
  ∧ ModuleOrderView (request_of alice POST) [(2, 7%Z); (1, (-1)%Z); (3, 4%Z)] store
    = ((ModuleOrderView (request_of alice POST) [(2, 7%Z)] store).1,
       ServerError "IntegrityError").
Proof.
  assert (Forall (λ p, order_accepted p.2) [(2, 7%Z)]) as Haccepted.
  { repeat (constructor; [split; vm_compute; reflexivity|]). constructor. }
  assert (order_write_error (2 ^ 63)%Z = Some "OverflowError") as Hwrite
    by (vm_compute; reflexivity).
  assert (order_write_error (-1)%Z = None) as Hwrite' by (vm_compute; reflexivity).
  assert (order_constraint_error (-1)%Z = Some "IntegrityError") as Hconstraint
    by (vm_compute; reflexivity).
  split_and!; [exact Haccepted | exact Hwrite | | exact Hwrite' | exact Hconstraint |].
  - exact (proj1 (proj1 (order_views_stop_at_refused_order (H := layer) alice
                           [(2, 7%Z)] [(3, 4%Z)] 1 (2 ^ 63)%Z "OverflowError" store
                           Haccepted) Hwrite)).
  - apply (proj1 (proj2 (order_views_stop_at_refused_order (H := layer) alice
                           [(2, 7%Z)] [(3, 4%Z)] 1 (-1)%Z "IntegrityError" store
                           Haccepted) Hwrite' Hconstraint)
             (new_module 1 "Intro" 0)); vm_compute; reflexivity.
Defined.

(** The page for the slug python, read back. *)
Lemma catalog_page_shows_the_store_witness :
  (CourseListView {| user := None; method := GET |} (Some "python") store).2
  = TemplateResponse "courses/course/list.html"
      (CatalogContext (annotate_total_courses store) (Some 1)
         (filter (λ kv, course_subject kv.2.1 = 1) (annotate_total_modules store)))
  ∧ filter (λ kv : pk * (Course * nat), course_subject kv.2.1 = 1)
      (annotate_total_modules store)
    ⊆ annotate_total_modules store
  ∧ ∃ S, subjects store !! 1 = Some S ∧ Some "python" = Some (subject_slug S).
Proof.
  assert ((CourseListView {| user := None; method := GET |} (Some "python") store).2
          = TemplateResponse "courses/course/list.html"
              (CatalogContext (annotate_total_courses store) (Some 1)
                 (filter (λ kv, course_subject kv.2.1 = 1)
                    (annotate_total_modules store)))) as Hresponse
    by (vm_compute; reflexivity).
  destruct (catalog_page_shows_the_store _ _ _ _ _ _ _ Hresponse)
    as (_ & Hsub & _ & Hchosen).
  split_and!; [exact Hresponse | exact Hsub |].
  exact (proj1 (Hchosen 1 eq_refl)).
Defined.

(** A visitor who is not signed in opens Bob's course 2. *)
Lemma course_detail_is_public_witness :
  courses store !! 2 = Some algebra
  ∧ CourseDetailView {| user := None; method := GET |} 2 store
    = (store, DetailPage "courses/course/detail.html"
                {| detail_object := (2, algebra); enroll_form_initial_course := 2 |})
  ∧ courses store !! 9 = None
  ∧ CourseDetailView {| user := None; method := GET |} 9 store
    = (store, DetailError Http404).
Proof.
  assert (courses store !! 2 = Some algebra) as HC by (vm_compute; reflexivity).
  assert (courses store !! 9 = None) as Hnone by (vm_compute; reflexivity).
  split_and!; [exact HC | | exact Hnone |].
  - exact (proj1 (course_detail_is_public None 2 store) algebra HC).
  - exact (proj2 (course_detail_is_public None 9 store) Hnone).
Defined.

(** The sample store is sound, and stays so when Alice adds a text and
    when she deletes content 1. *)
Lemma views_keep_content_integrity_witness :
  content_integrity store
  ∧ content_integrity
      (ContentCreateUpdateView (request_of alice POST) 1 "text" None text_form store).1
  ∧ content_integrity (ContentDeleteView (request_of alice POST) 1 store).1.
Proof.
  assert (content_integrity store) as Hstore.
  { split.
    - apply (bool_decide_unpack
               (map_Forall (λ _ K, is_Some (items store (content_item K).1
                                              !! (content_item K).2))
                  (contents store))).
      vm_compute. exact I.
    - intros j j' K K' HK HK'. revert j K HK j' K' HK'.
      apply (bool_decide_unpack
               (map_Forall (λ j K,
                  map_Forall (λ j' K', content_item K = content_item K' → j = j')
                    (contents store))
                  (contents store))).
      vm_compute. exact I. }
  destruct (views_keep_content_integrity (H := layer) (request_of alice POST) store
              Hstore) as (_ & _ & _ & _ & _ & Hform & Hdelete & _).
  split_and!; [exact Hstore | apply Hform | apply Hdelete].
Defined.

End OnTheStore.
